(** * intake.catalog.entry: the catalog entry and its persistence decision

    A shallow embedding of [CatalogEntry] (src/intake/catalog/entry.py):
    opening an entry ([__call__]), the lazily built default source
    ([_get_default_source]) and the operations forwarded to it
    ([__getattr__], [__getitem__], [__iter__], [__dir__]), the
    [has_been_persisted] property and the [gui] property.

    The entry talks to objects it does not define: the data source built by
    the subclass's [get], the persisted replica and its metadata, the
    persistence store, the clock and the GUI.  They are the fields of the
    class [Collaborators]; every call the entry makes to one of them is
    recorded in a trace, so that "never calls refresh" is a statement about
    that trace. *)

From stdpp Require Import gmap strings list sorting.
From Stdlib Require Import ZArith.

Set Warnings "-register-all".

Local Open Scope Z_scope.
Local Open Scope string_scope.

(** ** Python values *)

(** A [str] object.  Python's [==] compares contents, [is] compares
    identity.  A string literal of the program text is a compile-time
    constant, which CPython interns: all literals (and interned strings) with
    the same contents are one object.  A string made at run time (joined,
    decoded, read from a YAML catalog) is an object of its own, at its own
    address, whatever its contents. *)
Inductive pystr :=
| Interned (s : string)
| Allocated (addr : positive) (s : string).

Definition chars (a : pystr) : string :=
  match a with
  | Interned s => s
  | Allocated _ s => s
  end.

(** [a == b] on strings. *)
Definition str_eq (a b : pystr) : bool := String.eqb (chars a) (chars b).

(** [a is b] on strings. *)
Definition str_is (a b : pystr) : bool :=
  match a, b with
  | Interned s, Interned t => String.eqb s t
  | Allocated p _, Allocated q _ => Pos.eqb p q
  | _, _ => false
  end.

(** Numbers ([int], [float]): the entry only subtracts them, compares them
    and tests them for zero, so the arithmetic is an interface. *)
Class Numeric := {
  num : Type;
  num_of_bool : bool -> num;
  num_is_zero : num -> bool;
  num_sub : num -> num -> num;
  num_ltb : num -> num -> bool
}.

Inductive pyval `{Numeric} :=
| PyNone
| PyBool (b : bool)
| PyNum (x : num)
| PyStr (s : pystr)
| PyTuple (items : list pyval)
| PyObj (id : positive).

Inductive exn `{Numeric} :=
| ValueError (msg : string)
| TypeError (msg : string)
| KeyError (key : pyval)
| IndexError (msg : string)
| AttributeError (msg : string)
| NotImplementedError
| OtherError (cls : string) (msg : string).

Inductive outcome `{Numeric} (A : Type) :=
| Ok (a : A)
| Raise (e : exn).
Arguments Ok {_ A} a.
Arguments Raise {_ A} e.

Section Values.
Context `{Numeric}.

(** [bool(v)]; an object without [__bool__] and [__len__] is true. *)
Definition truthy (v : pyval) : bool :=
  match v with
  | PyNone => false
  | PyBool b => b
  | PyNum x => negb (num_is_zero x)
  | PyStr s => negb (String.eqb (chars s) "")
  | PyTuple items => match items with [] => false | _ => true end
  | PyObj _ => true
  end.

(** [v == 'lit']. *)
Definition eq_literal (v : pyval) (lit : string) : bool :=
  match v with
  | PyStr s => str_eq s (Interned lit)
  | _ => false
  end.

Definition as_number (v : pyval) : option num :=
  match v with
  | PyNum x => Some x
  | PyBool b => Some (num_of_bool b)
  | _ => None
  end.

(** [x - v] for a number [x]. *)
Definition py_sub (x : num) (v : pyval) : outcome num :=
  match as_number v with
  | Some y => Ok (num_sub x y)
  | None => Raise (TypeError "unsupported operand type(s) for -")
  end.

(** [v < y] for a number [y]. *)
Definition py_lt (v : pyval) (y : num) : outcome bool :=
  match as_number v with
  | Some x => Ok (num_ltb x y)
  | None => Raise (TypeError "'<' not supported")
  end.

(** [d[key]] on a [dict] with string keys. *)
Definition subscript (d : gmap string pyval) (key : string) : outcome pyval :=
  match d !! key with
  | Some v => Ok v
  | None => Raise (KeyError (PyStr (Interned key)))
  end.
End Values.

(** ** The entry and its collaborators *)

(** The instance attributes: those [__init__] sets, and, in [extra], the
    ones bound later (by subclasses, or [_gui] by the [gui] property). *)
Record CatalogEntry `{Numeric} := {
  _default_source : pyval;
  getenv : bool;
  getshell : bool;
  _pmode : pystr;
  extra : gmap string pyval
}.

Class Collaborators `{Numeric} := {
  (** everything outside the entry: sources, store, clock, files *)
  world : Type;
  (** plain attributes defined by the entry's class *)
  class_attrs : gmap string pyval;
  (** [self.get] on the user parameters, as the concrete entry implements it *)
  get : CatalogEntry -> gmap string pyval -> world -> outcome pyval * world;
  (** [s.has_been_persisted] *)
  source_has_been_persisted : pyval -> world -> outcome bool * world;
  (** [s.get_persisted()] *)
  source_get_persisted : pyval -> world -> outcome pyval * world;
  (** [s2.metadata] *)
  source_metadata : pyval -> world -> outcome (gmap string pyval) * world;
  (** [time.time()] *)
  time_time : world -> num * world;
  (** [store.refresh(s2)] *)
  store_refresh : pyval -> world -> outcome pyval * world;
  (** [getattr(o, name)] *)
  object_getattr : pyval -> string -> world -> outcome pyval * world;
  (** [o.name = v] *)
  object_setattr : pyval -> string -> pyval -> world -> outcome unit * world;
  (** [o[key]], [o.__getitem__(key)] *)
  object_getitem : pyval -> pyval -> world -> outcome pyval * world;
  (** [iter(o)] *)
  object_iter : pyval -> world -> outcome pyval * world;
  (** [dir(o)] *)
  object_dir : pyval -> world -> outcome (list string) * world;
  (** [EntryGUI(source=self, visible=visible)] *)
  EntryGUI : CatalogEntry -> bool -> world -> outcome pyval * world
}.

(** One recorded call to a collaborator. *)
Inductive event `{Numeric} :=
| EGet (user_parameters : gmap string pyval)
| EHasBeenPersisted (s : pyval)
| EGetPersisted (s : pyval)
| EMetadata (s2 : pyval)
| ETime
| ERefresh (s2 : pyval)
| EGetattr (o : pyval) (name : string)
| ESetattr (o : pyval) (name : string) (v : pyval)
| EGetitem (o : pyval) (key : pyval)
| EIter (o : pyval)
| EDir (o : pyval)
| EEntryGUI (visible : bool).

Record state `{Collaborators} := State {
  self : CatalogEntry;
  outside : world;
  trace : list event
}.
Arguments State {_ _} self outside trace.

(** Statements run on a state and end with a value or an exception; what
    was done before an exception stays done. *)
Definition M `{Collaborators} (A : Type) : Type := state -> outcome A * state.

Declare Scope py_scope.
Delimit Scope py_scope with py.

Section Monad.
Context `{Collaborators}.

Definition ret {A} (a : A) : M A := fun st => (Ok a, st).

Definition raise {A} (e : exn) : M A := fun st => (Raise e, st).

Definition bind {A B} (m : M A) (k : A -> M B) : M B :=
  fun st =>
    match m st with
    | (Ok a, st') => k a st'
    | (Raise e, st') => (Raise e, st')
    end.

Definition lift {A} (r : outcome A) : M A := fun st => (r, st).

(** Read the entry. *)
Definition this : M CatalogEntry := fun st => (Ok (self st), st).

(** Call a collaborator and record the call. *)
Definition perform {A} (ev : event) (op : world -> outcome A * world) : M A :=
  fun st =>
    let (r, w) := op (outside st) in
    (r, {| self := self st; outside := w; trace := trace st ++ [ev] |}).
End Monad.

Notation "'let*' x := c1 'in' c2" := (bind c1 (fun x => c2))
  (at level 10, x name, c1 at level 100, c2 at level 200,
   format "'[v' 'let*'  x  :=  c1  'in' '/' c2 ']'") : py_scope.

Local Open Scope py_scope.

(** ** The entry's methods *)

Section Entry.
Context `{Collaborators}.

(** [__init__(self, getenv, getshell)], lines 19-23, on the instance as
    [__new__] of the bases of the class left it: [before] holds what was
    bound on it by then. *)
Definition __init__ (before : gmap string pyval) (getenv getshell : bool)
  : CatalogEntry :=
  {| _default_source := PyNone;
     getenv := getenv;
     getshell := getshell;
     _pmode := Interned "default";
     extra := before |}.

(** [self.__dict__]. *)
Definition __dict__ (e : CatalogEntry) : gmap string pyval :=
  <["_default_source" := _default_source e]>
    (<["getenv" := PyBool (getenv e)]>
       (<["getshell" := PyBool (getshell e)]>
          (<["_pmode" := PyStr (_pmode e)]> (extra e)))).

(** [self.name = v], for a name that is none of the four of [__init__]
    and no property of the class (assigning to one of those raises). *)
Definition setattr_self (name : string) (v : pyval) : M unit :=
  fun st =>
    (Ok tt,
     {| self := {| _default_source := _default_source (self st);
                   getenv := getenv (self st);
                   getshell := getshell (self st);
                   _pmode := _pmode (self st);
                   extra := <[name := v]> (extra (self st)) |};
        outside := outside st;
        trace := trace st |}).

(** [persist is not None]. *)
Definition is_not_None (persist : option pystr) : bool :=
  match persist with
  | Some _ => true
  | None => false
  end.

(** [persist in ['always', 'never', 'default']]: membership is by [==]. *)
Definition in_modes (persist : option pystr) : bool :=
  match persist with
  | Some p =>
      existsb (str_eq p) [Interned "always"; Interned "never"; Interned "default"]
  | None => false
  end.

(** ['%s' % persist]. *)
Definition percent_s (persist : option pystr) : string :=
  match persist with
  | Some p => chars p
  | None => "None"
  end.

(** [persist or self._pmode]. *)
Definition or_pmode (persist : option pystr) (pmode : pystr) : pystr :=
  match persist with
  | Some p => if truthy (PyStr p) then p else pmode
  | None => pmode
  end.

Definition self_get (user_parameters : gmap string pyval) : M pyval :=
  let* e := this in
  perform (EGet user_parameters) (get e user_parameters).

Definition time_now : M num :=
  perform ETime (fun w => let (t, w') := time_time w in (Ok t, w')).

(** [__call__(self, persist=None, **kwargs)], lines 86-112.  The import
    of the store on line 96 binds a name and calls nothing. *)
Definition __call__ (persist : option pystr) (kwargs : gmap string pyval)
  : M pyval :=
  if is_not_None persist && negb (in_modes persist) then
    raise (ValueError
             ("Persist value (" +:+ percent_s persist +:+ ") not understood"))
  else
    let* e := this in
    let persist := or_pmode persist (_pmode e) in
    let* s := self_get kwargs in
    let* persisted :=
      perform (EHasBeenPersisted s) (source_has_been_persisted s) in
    if persisted && negb (str_is persist (Interned "never")) then
      let* s2 := perform (EGetPersisted s) (source_get_persisted s) in
      let* met := perform (EMetadata s2) (source_metadata s2) in
      let* as_is :=
        (if str_is persist (Interned "always") then ret true
         else let* ttl := lift (subscript met "ttl") in
              ret (negb (truthy ttl))) in
      if as_is then ret s2
      else
        let* ttl := lift (subscript met "ttl") in
        let* now := time_now in
        let* timestamp := lift (subscript met "timestamp") in
        let* elapsed := lift (py_sub now timestamp) in
        let* past := lift (py_lt ttl elapsed) in
        if past then ret s2
        else perform (ERefresh s2) (store_refresh s2)
    else ret s.

(** [_get_default_source(self)]: [return self()]. *)
Definition _get_default_source : M pyval := __call__ None ∅.

(** The getter of the [has_been_persisted] property, with the keyword
    parameters of its signature. *)
Definition has_been_persisted_fget (kwargs : gmap string pyval) : M bool :=
  let* s := self_get kwargs in
  perform (EHasBeenPersisted s) (source_has_been_persisted s).

(** The getter as the property calls it, with [self] alone.  What reading
    [entry.has_been_persisted] gives is [getattr_entry] below. *)
Definition has_been_persisted : M bool := has_been_persisted_fget ∅.

(** [__getattr__(self, attr)], lines 150-154. *)
Definition __getattr__ (attr : string) : M pyval :=
  let* e := this in
  match __dict__ e !! attr with
  | Some v => ret v
  | None =>
      let* src := _get_default_source in
      perform (EGetattr src attr) (object_getattr src attr)
  end.

(** What the entry itself defines under a name: the instance first, then
    the class. *)
Definition own_attr (e : CatalogEntry) (name : string) : option pyval :=
  match __dict__ e !! name with
  | Some v => Some v
  | None => class_attrs !! name
  end.

(** [self.name] for a plain attribute: what the entry defines, and when it
    defines nothing the [__getattr__] hook.  Methods and the properties
    [has_been_persisted], [plots] and [gui] are not looked up by name here:
    they are the definitions of this section, and [getattr_entry] below
    is the lookup of any name. *)
Definition getattr_self (name : string) : M pyval :=
  let* e := this in
  match own_attr e name with
  | Some v => ret v
  | None => __getattr__ name
  end.

(** [hasattr(self, name)]: only [AttributeError] means no. *)
Definition hasattr_self (name : string) : M bool :=
  fun st =>
    match getattr_self name st with
    | (Ok _, st') => (Ok true, st')
    | (Raise (AttributeError _), st') => (Ok false, st')
    | (Raise e, st') => (Raise e, st')
    end.

Definition selflist : list string :=
  ["describe"; "describe_open"; "get"; "has_been_persisted"; "plots"].

(** [list(sorted(names))] for a set of names. *)
Definition sorted (names : list string) : list string :=
  merge_sort (fun a b => Is_true (String.leb a b)) (remove_dups names).

(** [__dir__(self)], lines 156-160. *)
Definition __dir__ : M (list string) :=
  let* src := _get_default_source in
  let* names := perform (EDir src) (object_dir src) in
  ret (sorted (selflist ++ names)).

(** [__iter__(self)], lines 162-167. *)
Definition __iter__ : M pyval :=
  let* container := getattr_self "_container" in
  if eq_literal container "catalog" then
    let* src := _get_default_source in
    perform (EIter src) (object_iter src)
  else raise (ValueError "Cannot iterate a catalog entry").

Definition getitem (o key : pyval) : M pyval :=
  perform (EGetitem o key) (object_getitem o key).

(** [__getitem__(self, item)], lines 169-180. *)
Definition __getitem__ (item : pyval) : M pyval :=
  match item with
  | PyTuple (item0 :: item1 :: rest) =>
      let* src := _get_default_source in
      let* inner := getitem src item0 in
      getitem inner (PyTuple (item1 :: rest))
  | PyTuple [item0] =>
      let* src := _get_default_source in
      getitem src item0
  | PyTuple [] => raise (IndexError "tuple index out of range")
  | _ =>
      let* src := _get_default_source in
      getitem src item
  end.

(** The getter of the [gui] property, lines 185-192.  What reading
    [entry.gui] gives is [getattr_entry] below. *)
Definition gui : M pyval :=
  let* known := hasattr_self "_gui" in
  let* _ :=
    (if negb known then
       let* e := this in
       let* g := perform (EEntryGUI true) (EntryGUI e true) in
       setattr_self "_gui" g
     else
       let* g := getattr_self "_gui" in
       perform (ESetattr g "visible" (PyBool true))
               (object_setattr g "visible" (PyBool true))) in
  getattr_self "_gui".

(** [isinstance(item, tuple)]. *)
Definition is_tuple (item : pyval) : bool :=
  match item with
  | PyTuple _ => true
  | _ => false
  end.

Definition is_get (ev : event) : bool :=
  match ev with
  | EGet _ => true
  | _ => false
  end.

(** How many sources [get] has built, by the trace. *)
Definition sources_built (tr : list event) : nat :=
  length (List.filter is_get tr).

Definition is_EntryGUI (ev : event) : bool :=
  match ev with
  | EEntryGUI _ => true
  | _ => false
  end.

(** How many GUI handles were constructed, by the trace. *)
Definition guis_built (tr : list event) : nat :=
  length (List.filter is_EntryGUI tr).

(** Running [m] from [st] leaves the entry's attributes as they were and
    has [get] build exactly one more source, however the run ends. *)
Definition opens_anew {A} (m : M A) (st : state) : Prop :=
  forall (r : outcome A) (st' : state),
    m st = (r, st') ->
    self st' = self st /\
    sources_built (trace st') = S (sources_built (trace st)) /\
    guis_built (trace st') = guis_built (trace st).
End Entry.

(** ** More of the entry: the calls of one opening, [__repr__] and
    [_display_content] *)

Section Calls.
Context `{Collaborators}.

(** The calls one run of [__call__] can make, in their order: a run stops
    after any of them. *)
Inductive call_events (kwargs : gmap string pyval) : list event -> Prop :=
| stopped_at_get :
    call_events kwargs [EGet kwargs]
| stopped_at_flag (s : pyval) :
    call_events kwargs [EGet kwargs; EHasBeenPersisted s]
| stopped_at_replica (s : pyval) :
    call_events kwargs [EGet kwargs; EHasBeenPersisted s; EGetPersisted s]
| stopped_at_metadata (s s2 : pyval) :
    call_events kwargs
      [EGet kwargs; EHasBeenPersisted s; EGetPersisted s; EMetadata s2]
| stopped_at_clock (s s2 : pyval) :
    call_events kwargs
      [EGet kwargs; EHasBeenPersisted s; EGetPersisted s; EMetadata s2; ETime]
| stopped_at_refresh (s s2 : pyval) :
    call_events kwargs
      [EGet kwargs; EHasBeenPersisted s; EGetPersisted s; EMetadata s2; ETime;
       ERefresh s2].

Definition is_getitem (ev : event) : bool :=
  match ev with
  | EGetitem _ _ => true
  | _ => false
  end.

(** How many item accesses were made, by the trace. *)
Definition items_read (tr : list event) : nat :=
  length (List.filter is_getitem tr).

(** The names [__init__] binds. *)
Definition init_names : list string :=
  ["_default_source"; "getenv"; "getshell"; "_pmode"].

(** The entry once [setattr_self name v] has run. *)
Definition with_attr (name : string) (v : pyval) (e : CatalogEntry)
  : CatalogEntry :=
  {| _default_source := _default_source e;
     getenv := getenv e;
     getshell := getshell e;
     _pmode := _pmode e;
     extra := <[name := v]> (extra e) |}.

(** The order of [sorted]: [a <= b] on strings. *)
Definition str_le (a b : string) : Prop := Is_true (String.leb a b).
End Calls.

(** What the display methods use beyond [Collaborators]: [describe] and
    [describe_open] of the concrete entry, [deepcopy], [str] of a value that
    is no [str], and which exception classes derive from [ValueError]. *)
Class Describing `{Collaborators} := {
  describe : CatalogEntry -> world -> outcome (gmap string pyval) * world;
  describe_open :
    CatalogEntry -> gmap string pyval -> world ->
    outcome (gmap string pyval) * world;
  deepcopy : gmap string pyval -> world -> outcome (gmap string pyval) * world;
  py_str : pyval -> string;
  derives_ValueError : string -> bool
}.

Section Display.
Context `{Describing}.

(** [str(v)], [format(v, '')]. *)
Definition str_of (v : pyval) : string :=
  match v with
  | PyStr s => chars s
  | _ => py_str v
  end.

(** [(before + '%s' + after) % v]: a tuple is the argument list. *)
Definition percent_format (before after : string) (v : pyval)
  : outcome string :=
  match v with
  | PyTuple [] => Raise (TypeError "not enough arguments for format string")
  | PyTuple [x] => Ok (before +:+ str_of x +:+ after)
  | PyTuple _ =>
      Raise (TypeError "not all arguments converted during string formatting")
  | _ => Ok (before +:+ str_of v +:+ after)
  end.

(** [__repr__(self)], lines 182-183. *)
Definition __repr__ : M string :=
  let* name := getattr_self "name" in
  lift (percent_format "<Catalog Entry: " ">" name).

(** A call that is none of the recorded ones. *)
Definition call_outside {A} (op : world -> outcome A * world) : M A :=
  fun st =>
    let (r, w) := op (outside st) in
    (r, {| self := self st; outside := w; trace := trace st |}).

(** [except ValueError]. *)
Definition is_ValueError (err : exn) : bool :=
  match err with
  | ValueError _ => true
  | OtherError cls _ => derives_ValueError cls
  | _ => false
  end.

(** [_display_content(self)], lines 140-148. *)
Definition _display_content : M (gmap string pyval * option string) :=
  let* e := this in
  let* described := call_outside (describe e) in
  let* contents := call_outside (deepcopy described) in
  fun st =>
    match call_outside (describe_open e ∅) st with
    | (Ok opened, st') => (Ok (opened ∪ contents, None), st')
    | (Raise err, st') =>
        if is_ValueError err then
          match subscript contents "name" with
          | Ok name =>
              (Ok (contents,
                   Some ("Need an additional plugin to load "
                           +:+ str_of name +:+ ".")),
               st')
          | Raise err' => (Raise err', st')
          end
        else (Raise err, st')
    end.
End Display.

(** What the lookup of a name uses beyond [Collaborators]: the list of
    plots of a metadata object, the bound method object of a method, and
    the properties that the bases of the class define, with their
    getters. *)
Class Properties `{Collaborators} := {
  (** [list(m.get('plots', {}))] for the object [m] *)
  plots_of : pyval -> world -> outcome pyval * world;
  (** the method of the given name, bound to the entry *)
  bound_method : string -> pyval;
  (** the getter of the property a base of the class defines under a name *)
  inherited_property : string -> option (M pyval)
}.

Section Lookup.
Context `{Properties}.

(** The getter of the [plots] property, lines 123-126. *)
Definition plots : M pyval :=
  let* m := getattr_self "_metadata" in
  call_outside (plots_of m).

(** Reading a property: the getter is run with [self] alone, and when it
    raises [AttributeError] Python turns to [__getattr__] with the name of
    the property. *)
Definition read_property (name : string) (fget : M pyval) : M pyval :=
  fun st =>
    match fget st with
    | (Raise (AttributeError _), st') => __getattr__ name st'
    | run => run
    end.

(** The properties of the class, by name. *)
Definition property_of_class (name : string) : option (M pyval) :=
  if String.eqb name "has_been_persisted" then
    Some (let* flag := has_been_persisted in ret (PyBool flag))
  else if String.eqb name "plots" then Some plots
  else if String.eqb name "gui" then Some gui
  else inherited_property name.

(** The methods the class defines, lines 19-192. *)
Definition method_names : list string :=
  ["__init__"; "describe"; "describe_open"; "get"; "__call__";
   "_get_default_source"; "_ipython_display_"; "_display_content";
   "__getattr__"; "__dir__"; "__iter__"; "__getitem__"; "__repr__"].

(** What the class gives for a name that is no property: a method bound
    to the entry, or a plain attribute. *)
Definition class_member (name : string) : option pyval :=
  if existsb (String.eqb name) method_names then Some (bound_method name)
  else class_attrs !! name.

(** What the entry itself defines under a name that is no property: the
    instance first, then the class. *)
Definition defined_on_entry (e : CatalogEntry) (name : string)
  : option pyval :=
  match __dict__ e !! name with
  | Some v => Some v
  | None => class_member name
  end.

(** [entry.name], [getattr(entry, name)]: a property of the class comes
    before everything else; then the instance, the class, and at last the
    [__getattr__] hook. *)
Definition getattr_entry (name : string) : M pyval :=
  match property_of_class name with
  | Some fget => read_property name fget
  | None =>
      let* e := this in
      match defined_on_entry e name with
      | Some v => ret v
      | None => __getattr__ name
      end
  end.

(** Running [m] from [st] leaves the entry's attributes as they were,
    constructs no GUI, and calls [get] exactly [n] times, each time with no
    user parameters, however the run ends. *)
Definition opens_default {A} (n : nat) (m : M A) (st : state) : Prop :=
  forall (r : outcome A) (st' : state),
    m st = (r, st') ->
    self st' = self st /\
    exists evs : list event,
      trace st' = (trace st ++ evs)%list /\
      List.filter is_get evs = replicate n (EGet ∅) /\
      List.filter is_EntryGUI evs = [].
End Lookup.

(** ** A small catalog to run the entry on

    Whole seconds as numbers; one data source, which [get] opens anew at
    every call (live sources are the objects 10, 11, ...); object 1 is its
    persisted replica, when there is one, and object 2 the refreshed
    replica.  Every source is a mapping with the one key ['a'], whose value
    (object 4) is a plain [dict] with the one key ['b']. *)

Module Demo.

Definition seconds : Numeric :=
  {| num := Z;
     num_of_bool := fun b : bool => if b then 1 else 0;
     num_is_zero := Z.eqb 0;
     num_sub := Z.sub;
     num_ltb := Z.ltb |}.

#[local] Existing Instance seconds.

(** [replica] holds the ttl and the timestamp of the persisted replica,
    when there is one. *)
Record store_world := {
  clock : Z;
  opened : positive;
  replica : option (pyval * Z)
}.

Definition replica_obj : pyval := PyObj 1.
Definition refreshed_obj : pyval := PyObj 2.
Definition gui_obj : pyval := PyObj 3.
Definition inner_dict : pyval := PyObj 4.
Definition iterator_obj : pyval := PyObj 5.

(** The world once one more source is open. *)
Definition opening (w : store_world) : store_world :=
  {| clock := clock w; opened := Pos.succ (opened w); replica := replica w |}.

Definition demo_get (e : CatalogEntry) (user_parameters : gmap string pyval)
  (w : store_world) : outcome pyval * store_world :=
  (Ok (PyObj (opened w)), opening w).

Definition demo_has_been_persisted (s : pyval) (w : store_world)
  : outcome bool * store_world :=
  (Ok (match replica w with Some _ => true | None => false end), w).

Definition demo_get_persisted (s : pyval) (w : store_world)
  : outcome pyval * store_world :=
  match replica w with
  | Some _ => (Ok replica_obj, w)
  | None => (Raise (OtherError "RuntimeError" "not persisted"), w)
  end.

Definition demo_metadata (s2 : pyval) (w : store_world)
  : outcome (gmap string pyval) * store_world :=
  match replica w with
  | Some (ttl, timestamp) =>
      (Ok {[ "ttl" := ttl; "timestamp" := PyNum timestamp ]}, w)
  | None => (Ok ∅, w)
  end.

Definition demo_time (w : store_world) : Z * store_world := (clock w, w).

Definition demo_refresh (s2 : pyval) (w : store_world)
  : outcome pyval * store_world :=
  (Ok refreshed_obj,
   {| clock := clock w;
      opened := opened w;
      replica := (fun met : pyval * Z => (fst met, clock w)) <$> replica w |}).

Definition demo_getattr (o : pyval) (name : string) (w : store_world)
  : outcome pyval * store_world :=
  if String.eqb name "container"
  then (Ok (PyStr (Interned "dataframe")), w)
  else (Raise (AttributeError name), w).

Definition demo_setattr (o : pyval) (name : string) (v : pyval)
  (w : store_world) : outcome unit * store_world :=
  (Ok tt, w).

Definition demo_getitem (o key : pyval) (w : store_world)
  : outcome pyval * store_world :=
  match o, key with
  | PyObj 4, PyStr k =>
      if String.eqb (chars k) "b" then (Ok (PyNum 7), w)
      else (Raise (KeyError key), w)
  | PyObj _, PyStr k =>
      if String.eqb (chars k) "a" then (Ok inner_dict, w)
      else (Raise (KeyError key), w)
  | _, _ => (Raise (KeyError key), w)
  end.

Definition demo_iter (o : pyval) (w : store_world)
  : outcome pyval * store_world :=
  (Ok iterator_obj, w).

Definition demo_dir (o : pyval) (w : store_world)
  : outcome (list string) * store_world :=
  (Ok ["read"; "container"; "get"], w).

Definition demo_EntryGUI (e : CatalogEntry) (visible : bool) (w : store_world)
  : outcome pyval * store_world :=
  (Ok gui_obj, w).

Definition store : Collaborators :=
  {| world := store_world;
     class_attrs := ∅;
     get := demo_get;
     source_has_been_persisted := demo_has_been_persisted;
     source_get_persisted := demo_get_persisted;
     source_metadata := demo_metadata;
     time_time := demo_time;
     store_refresh := demo_refresh;
     object_getattr := demo_getattr;
     object_setattr := demo_setattr;
     object_getitem := demo_getitem;
     object_iter := demo_iter;
     object_dir := demo_dir;
     EntryGUI := demo_EntryGUI |}.

#[local] Existing Instance store.

(** An entry as [__init__] leaves it, in the given mode. *)
Definition entry_in (pmode : pystr) : CatalogEntry :=
  {| _default_source := PyNone;
     getenv := true;
     getshell := true;
     _pmode := pmode;
     extra := ∅ |}.

(** The same, with [_container] bound as a concrete entry does. *)
Definition entry_of (container : string) : CatalogEntry :=
  {| _default_source := PyNone;
     getenv := true;
     getshell := true;
     _pmode := Interned "default";
     extra := {[ "_container" := PyStr (Interned container) ]} |}.

(** Nothing persisted. *)
Definition fresh_world : store_world :=
  {| clock := 1000; opened := 10; replica := None |}.

(** A replica persisted [age] seconds ago with the given [ttl]. *)
Definition persisted_world (ttl : pyval) (age : Z) : store_world :=
  {| clock := 1000;
     opened := 10;
     replica := Some (ttl, 1000 - age) |}.

Definition start (e : CatalogEntry) (w : store_world) : state :=
  {| self := e; outside := w; trace := [] |}.

(** ['never'] and ['always'] as strings made at run time, for instance by
    [''.join(['nev', 'er'])] or read from a catalog file. *)
Definition never_at_run_time : pystr := Allocated 1 "never".
Definition always_at_run_time : pystr := Allocated 2 "always".

Definition default_entry : CatalogEntry := entry_in (Interned "default").
Definition key_a : pyval := PyStr (Interned "a").
Definition key_b : pyval := PyStr (Interned "b").

End Demo.

(** ** Scripted collaborators

    Each collaborator answers what the script says, for every argument, and
    changes nothing: enough to make any one of them fail, or to put any
    metadata and any attribute on the objects. *)

Module Scripted.

#[local] Existing Instance Demo.seconds.

Record script := {
  live : outcome pyval;
  flag : outcome bool;
  persisted : outcome pyval;
  meta : outcome (gmap string pyval);
  now : Z;
  refreshed : outcome pyval;
  attributes : gmap string pyval;
  listing : list string;
  described : outcome (gmap string pyval);
  opened_as : outcome (gmap string pyval)
}.

Definition scripted_getattr (o : pyval) (name : string) (w : script)
  : outcome pyval * script :=
  match attributes w !! name with
  | Some v => (Ok v, w)
  | None => (Raise (AttributeError name), w)
  end.

Definition collaborators : Collaborators :=
  {| world := script;
     class_attrs := ∅;
     get := fun _ _ w => (live w, w);
     source_has_been_persisted := fun _ w => (flag w, w);
     source_get_persisted := fun _ w => (persisted w, w);
     source_metadata := fun _ w => (meta w, w);
     time_time := fun w => (now w, w);
     store_refresh := fun _ w => (refreshed w, w);
     object_getattr := scripted_getattr;
     object_setattr := fun _ _ _ w => (Ok tt, w);
     object_getitem := fun _ key w => (Raise (KeyError key), w);
     object_iter := fun _ w => (Ok (PyObj 5), w);
     object_dir := fun _ w => (Ok (listing w), w);
     EntryGUI := fun _ _ w => (Ok (PyObj 3), w) |}.

#[local] Existing Instance collaborators.

Definition describing : Describing :=
  {| describe := fun _ w => (described w, w);
     describe_open := fun _ _ w => (opened_as w, w);
     deepcopy := fun d w => (Ok d, w);
     py_str := fun _ => "<object>";
     derives_ValueError := fun cls => String.eqb cls "UnicodeError" |}.

(** A source (object 10) with a replica (object 1) of the given metadata,
    at time 1000; the objects have the given attributes. *)
Definition with_replica (met : gmap string pyval)
  (attrs : gmap string pyval) : script :=
  {| live := Ok (PyObj 10);
     flag := Ok true;
     persisted := Ok (PyObj 1);
     meta := Ok met;
     now := 1000;
     refreshed := Ok (PyObj 2);
     attributes := attrs;
     listing := ["read"; "plots"; "discover"; "read"];
     described := Ok {[ "name" := PyStr (Interned "trips");
                        "container" := PyStr (Interned "dataframe") ]};
     opened_as := Ok {[ "container" := PyStr (Interned "catalog");
                        "plugin" := PyStr (Interned "csv") ]} |}.

(** A source without a replica. *)
Definition without_replica (attrs : gmap string pyval) : script :=
  {| live := Ok (PyObj 10);
     flag := Ok false;
     persisted := Raise (OtherError "RuntimeError" "not persisted");
     meta := Ok ∅;
     now := 1000;
     refreshed := Raise (OtherError "RuntimeError" "not persisted");
     attributes := attrs;
     listing := ["read"; "plots"; "discover"; "read"];
     described := Ok {[ "name" := PyStr (Interned "trips");
                        "container" := PyStr (Interned "dataframe") ]};
     opened_as := Raise (ValueError "no plugin") |}.

(** The base class: [get], [describe] and [describe_open] raise
    [NotImplementedError] (lines 41, 66 and 84). *)
Definition base_class : script :=
  {| live := Raise NotImplementedError;
     flag := Ok false;
     persisted := Raise NotImplementedError;
     meta := Ok ∅;
     now := 1000;
     refreshed := Raise NotImplementedError;
     attributes := ∅;
     listing := [];
     described := Raise NotImplementedError;
     opened_as := Raise NotImplementedError |}.

(** A source whose replica the store fails to give. *)
Definition broken_store : script :=
  {| live := Ok (PyObj 10);
     flag := Ok true;
     persisted := Raise (OtherError "OSError" "store unreadable");
     meta := Ok ∅;
     now := 1000;
     refreshed := Raise (OtherError "OSError" "store unreadable");
     attributes := ∅;
     listing := [];
     described := Raise NotImplementedError;
     opened_as := Raise NotImplementedError |}.

(** A source that has no [has_been_persisted] attribute. *)
Definition flagless : script :=
  {| live := Ok (PyObj 10);
     flag := Raise (AttributeError "has_been_persisted");
     persisted := Raise (OtherError "RuntimeError" "not persisted");
     meta := Ok ∅;
     now := 1000;
     refreshed := Raise (OtherError "RuntimeError" "not persisted");
     attributes := ∅;
     listing := [];
     described := Raise NotImplementedError;
     opened_as := Raise NotImplementedError |}.

(** The class has no bases with properties; the plots of any metadata
    object are none. *)
Definition properties : Properties :=
  {| plots_of := fun _ w => (Ok (PyTuple []), w);
     bound_method := fun _ => PyObj 20;
     inherited_property := fun _ => None |}.

(** A source with an attribute [plots]. *)
Definition plotting_source : script :=
  without_replica {[ "plots" := PyTuple [PyStr (Interned "scatter")] ]}.

Definition entry : CatalogEntry := Demo.entry_in (Interned "default").

Definition named_entry : CatalogEntry :=
  {| _default_source := PyNone;
     getenv := true;
     getshell := true;
     _pmode := Interned "default";
     extra := {[ "name" := PyStr (Interned "trips") ]} |}.

Definition start (e : CatalogEntry) (w : script) : state :=
  {| self := e; outside := w; trace := [] |}.

Definition reached (e : CatalogEntry) (w : script) (tr : list event) : state :=
  {| self := e; outside := w; trace := tr |}.

End Scripted.

(** * Properties *)

(** ** Running statements *)

Section Running.
Context `{Collaborators}.

Lemma bind_ok {A B} (m : M A) (k : A -> M B) (st st' : state) (a : A) :
  m st = (Ok a, st') -> bind m k st = k a st'.
Proof. intros Hm. unfold bind. by rewrite Hm. Qed.

Lemma bind_raise {A B} (m : M A) (k : A -> M B) (st st' : state) (e : exn) :
  m st = (Raise e, st') -> bind m k st = (Raise e, st').
Proof. intros Hm. unfold bind. by rewrite Hm. Qed.

Lemma bind_assoc {A B C} (m : M A) (k : A -> M B) (k' : B -> M C) (st : state) :
  bind (bind m k) k' st = bind m (fun a => bind (k a) k') st.
Proof. unfold bind. destruct (m st) as [[a|e] st']; reflexivity. Qed.

Lemma perform_run {A} (ev : event) (op : world -> outcome A * world)
  (e : CatalogEntry) (w w' : world) (tr : list event) (r : outcome A) :
  op w = (r, w') ->
  perform ev op (State e w tr) = (r, State e w' (tr ++ [ev])).
Proof. intros Hop. unfold perform. simpl. by rewrite Hop. Qed.

Lemma self_get_run (kwargs : gmap string pyval) (e : CatalogEntry)
  (w w' : world) (tr : list event) (r : outcome pyval) :
  get e kwargs w = (r, w') ->
  self_get kwargs (State e w tr) = (r, State e w' (tr ++ [EGet kwargs])).
Proof.
  intros Hget. unfold self_get.
  rewrite (bind_ok this _ (State e w tr) (State e w tr) e) by reflexivity.
  by apply perform_run.
Qed.

(** [is] against a literal implies [==]. *)
Lemma str_is_chars (a : pystr) (lit : string) :
  str_is a (Interned lit) = true -> chars a = lit.
Proof.
  destruct a as [s|addr s]; simpl; [|discriminate].
  intros Heq. by apply String.eqb_eq.
Qed.

Lemma str_is_other (a : pystr) (lit : string) :
  chars a ≠ lit -> str_is a (Interned lit) = false.
Proof.
  intros Hne. destruct (str_is a (Interned lit)) eqn:His; [|reflexivity].
  by apply str_is_chars in His.
Qed.

(** A string made at run time is no literal. *)
Lemma str_is_allocated (addr : positive) (s lit : string) :
  str_is (Allocated addr s) (Interned lit) = false.
Proof. reflexivity. Qed.

(** The prefix of [__call__] every path shares: the override is accepted,
    [get] builds the live source and the source is asked for a replica. *)
Lemma call_prefix (persist : option pystr) (kwargs : gmap string pyval)
  (e : CatalogEntry) (w w1 w2 : world) (tr : list event) (s : pyval)
  (persisted : bool) (rest : M pyval) :
  is_not_None persist && negb (in_modes persist) = false ->
  get e kwargs w = (Ok s, w1) ->
  source_has_been_persisted s w1 = (Ok persisted, w2) ->
  __call__ persist kwargs (State e w tr) =
  (if persisted && negb (str_is (or_pmode persist (_pmode e)) (Interned "never"))
   then
     let* s2 := perform (EGetPersisted s) (source_get_persisted s) in
     let* met := perform (EMetadata s2) (source_metadata s2) in
     let* as_is :=
       (if str_is (or_pmode persist (_pmode e)) (Interned "always") then ret true
        else let* ttl := lift (subscript met "ttl") in
             ret (negb (truthy ttl))) in
     if as_is then ret s2
     else
       let* ttl := lift (subscript met "ttl") in
       let* now := time_now in
       let* timestamp := lift (subscript met "timestamp") in
       let* elapsed := lift (py_sub now timestamp) in
       let* past := lift (py_lt ttl elapsed) in
       if past then ret s2
       else perform (ERefresh s2) (store_refresh s2)
   else ret s)
    (State e w2 (tr ++ [EGet kwargs; EHasBeenPersisted s])).
Proof.
  intros Hvalid Hget Hflag. unfold __call__. rewrite Hvalid.
  rewrite (bind_ok this _ (State e w tr) (State e w tr) e) by reflexivity.
  rewrite (bind_ok _ _ _ _ s (self_get_run kwargs e w w1 tr _ Hget)).
  rewrite (bind_ok _ _ _ _ persisted
             (perform_run _ _ e w1 w2 _ _ Hflag)).
  by rewrite <- app_assoc.
Qed.

(** The replica and its metadata are fetched. *)
Lemma fetch_replica (s s2 : pyval) (met : gmap string pyval)
  (e : CatalogEntry) (w2 w3 w4 : world) (tr : list event)
  (k : pyval -> gmap string pyval -> M pyval) :
  source_get_persisted s w2 = (Ok s2, w3) ->
  source_metadata s2 w3 = (Ok met, w4) ->
  (let* s2 := perform (EGetPersisted s) (source_get_persisted s) in
   let* met := perform (EMetadata s2) (source_metadata s2) in
   k s2 met) (State e w2 tr) =
  k s2 met (State e w4 (tr ++ [EGetPersisted s; EMetadata s2])).
Proof.
  intros Hreplica Hmeta.
  rewrite (bind_ok _ _ _ _ s2 (perform_run _ _ e w2 w3 _ _ Hreplica)).
  rewrite (bind_ok _ _ _ _ met (perform_run _ _ e w3 w4 _ _ Hmeta)).
  by rewrite <- app_assoc.
Qed.

End Running.

(** ** Opening an entry: the persistence decision *)

Section Opening.
Context `{Collaborators}.

(** C2.  An override that is given and is none of 'always', 'never' and
    'default' makes the call raise [ValueError] (the spec's InvalidArgument)
    with the offending value in its message; the state is the one the call
    started in: the entry is unchanged and nothing was recorded, so [get]
    was not called and the store was not consulted. *)
Theorem C2_invalid_override_raises (p : pystr) (kwargs : gmap string pyval)
  (st : state) :
  chars p ≠ "always" -> chars p ≠ "never" -> chars p ≠ "default" ->
  __call__ (Some p) kwargs st =
  (Raise (ValueError ("Persist value (" +:+ chars p +:+ ") not understood")),
   st).
Proof.
  intros Halways Hnever Hdefault. unfold __call__, in_modes, str_eq. simpl.
  apply String.eqb_neq in Halways, Hnever, Hdefault.
  by rewrite Halways, Hnever, Hdefault.
Qed.

(** Without a persisted replica the live source is returned, in every
    mode, and only [get] and [has_been_persisted] were called. *)
Lemma call_without_replica (persist : option pystr)
  (kwargs : gmap string pyval) (e : CatalogEntry) (w w1 w2 : world)
  (tr : list event) (s : pyval) :
  is_not_None persist && negb (in_modes persist) = false ->
  get e kwargs w = (Ok s, w1) ->
  source_has_been_persisted s w1 = (Ok false, w2) ->
  __call__ persist kwargs (State e w tr) =
  (Ok s, State e w2 (tr ++ [EGet kwargs; EHasBeenPersisted s])).
Proof.
  intros Hvalid Hget Hflag.
  by rewrite (call_prefix _ _ _ _ _ _ _ _ _ (ret s) Hvalid Hget Hflag).
Qed.

(** In the mode that is the literal 'never' the live source is returned,
    replica or not. *)
Lemma call_never_literal (persist : option pystr)
  (kwargs : gmap string pyval) (e : CatalogEntry) (w w1 w2 : world)
  (tr : list event) (s : pyval) (persisted : bool) :
  is_not_None persist && negb (in_modes persist) = false ->
  or_pmode persist (_pmode e) = Interned "never" ->
  get e kwargs w = (Ok s, w1) ->
  source_has_been_persisted s w1 = (Ok persisted, w2) ->
  __call__ persist kwargs (State e w tr) =
  (Ok s, State e w2 (tr ++ [EGet kwargs; EHasBeenPersisted s])).
Proof.
  intros Hvalid Hmode Hget Hflag.
  rewrite (call_prefix _ _ _ _ _ _ _ _ _ (ret s) Hvalid Hget Hflag).
  rewrite Hmode. simpl. by rewrite andb_false_r.
Qed.

(** In the mode that is the literal 'always' the replica is returned as it
    is; its metadata is fetched but not read. *)
Lemma call_always_literal (persist : option pystr)
  (kwargs : gmap string pyval) (e : CatalogEntry) (w w1 w2 w3 w4 : world)
  (tr : list event) (s s2 : pyval) (met : gmap string pyval) :
  is_not_None persist && negb (in_modes persist) = false ->
  or_pmode persist (_pmode e) = Interned "always" ->
  get e kwargs w = (Ok s, w1) ->
  source_has_been_persisted s w1 = (Ok true, w2) ->
  source_get_persisted s w2 = (Ok s2, w3) ->
  source_metadata s2 w3 = (Ok met, w4) ->
  __call__ persist kwargs (State e w tr) =
  (Ok s2,
   State e w4
     (tr ++ [EGet kwargs; EHasBeenPersisted s; EGetPersisted s; EMetadata s2])).
Proof.
  intros Hvalid Hmode Hget Hflag Hreplica Hmeta.
  rewrite (call_prefix _ _ _ _ _ _ _ _ _ (ret s) Hvalid Hget Hflag).
  rewrite Hmode. simpl.
  rewrite (fetch_replica s s2 met e w2 w3 w4 _ _ Hreplica Hmeta).
  simpl. by rewrite <- app_assoc.
Qed.

(** C5.  In any mode other than 'never', with a replica whose metadata gives
    a false [ttl] (0, [None]), the replica is returned as fetched and
    [refresh] is not called. *)
Theorem C5_falsy_ttl_returns_replica (persist : option pystr)
  (kwargs : gmap string pyval) (e : CatalogEntry) (w w1 w2 w3 w4 : world)
  (tr : list event) (s s2 : pyval) (met : gmap string pyval) (ttl : pyval) :
  is_not_None persist && negb (in_modes persist) = false ->
  chars (or_pmode persist (_pmode e)) ≠ "never" ->
  get e kwargs w = (Ok s, w1) ->
  source_has_been_persisted s w1 = (Ok true, w2) ->
  source_get_persisted s w2 = (Ok s2, w3) ->
  source_metadata s2 w3 = (Ok met, w4) ->
  met !! "ttl" = Some ttl ->
  truthy ttl = false ->
  __call__ persist kwargs (State e w tr) =
  (Ok s2,
   State e w4
     (tr ++ [EGet kwargs; EHasBeenPersisted s; EGetPersisted s; EMetadata s2])).
Proof.
  intros Hvalid Hmode Hget Hflag Hreplica Hmeta Hlookup Hfalse.
  rewrite (call_prefix _ _ _ _ _ _ _ _ _ (ret s) Hvalid Hget Hflag).
  rewrite (str_is_other _ _ Hmode). simpl.
  rewrite (fetch_replica s s2 met e w2 w3 w4 _ _ Hreplica Hmeta).
  rewrite <- app_assoc. simpl.
  destruct (str_is (or_pmode persist (_pmode e)) (Interned "always"));
    [reflexivity|].
  unfold bind, lift, subscript, ret. by rewrite Hlookup, Hfalse.
Qed.

(** A replica whose metadata has no [ttl] key at all makes the call raise
    [KeyError], in any mode that is neither of the two literals. *)
Lemma call_missing_ttl (persist : option pystr)
  (kwargs : gmap string pyval) (e : CatalogEntry) (w w1 w2 w3 w4 : world)
  (tr : list event) (s s2 : pyval) (met : gmap string pyval) :
  is_not_None persist && negb (in_modes persist) = false ->
  str_is (or_pmode persist (_pmode e)) (Interned "never") = false ->
  str_is (or_pmode persist (_pmode e)) (Interned "always") = false ->
  get e kwargs w = (Ok s, w1) ->
  source_has_been_persisted s w1 = (Ok true, w2) ->
  source_get_persisted s w2 = (Ok s2, w3) ->
  source_metadata s2 w3 = (Ok met, w4) ->
  met !! "ttl" = None ->
  __call__ persist kwargs (State e w tr) =
  (Raise (KeyError (PyStr (Interned "ttl"))),
   State e w4
     (tr ++ [EGet kwargs; EHasBeenPersisted s; EGetPersisted s; EMetadata s2])).
Proof.
  intros Hvalid Hnever Halways Hget Hflag Hreplica Hmeta Hlookup.
  rewrite (call_prefix _ _ _ _ _ _ _ _ _ (ret s) Hvalid Hget Hflag).
  rewrite Hnever. simpl.
  rewrite (fetch_replica s s2 met e w2 w3 w4 _ _ Hreplica Hmeta).
  rewrite <- app_assoc, Halways. simpl.
  unfold bind, lift, subscript. by rewrite Hlookup.
Qed.

(** The comparison of lines 108-111, once [ttl] is known to be true: the
    clock is read, and [ttl < now - timestamp] keeps the replica while
    anything else refreshes it. *)
Lemma call_compares (persist : option pystr)
  (kwargs : gmap string pyval) (e : CatalogEntry) (w w1 w2 w3 w4 w5 : world)
  (tr : list event) (s s2 : pyval) (met : gmap string pyval)
  (ttl timestamp : pyval) (now elapsed : num) (past : bool) :
  is_not_None persist && negb (in_modes persist) = false ->
  str_is (or_pmode persist (_pmode e)) (Interned "never") = false ->
  str_is (or_pmode persist (_pmode e)) (Interned "always") = false ->
  get e kwargs w = (Ok s, w1) ->
  source_has_been_persisted s w1 = (Ok true, w2) ->
  source_get_persisted s w2 = (Ok s2, w3) ->
  source_metadata s2 w3 = (Ok met, w4) ->
  met !! "ttl" = Some ttl ->
  truthy ttl = true ->
  time_time w4 = (now, w5) ->
  met !! "timestamp" = Some timestamp ->
  py_sub now timestamp = Ok elapsed ->
  py_lt ttl elapsed = Ok past ->
  __call__ persist kwargs (State e w tr) =
  if past then
    (Ok s2,
     State e w5
       (tr ++ [EGet kwargs; EHasBeenPersisted s; EGetPersisted s;
               EMetadata s2; ETime]))
  else
    let (r, w6) := store_refresh s2 w5 in
    (r,
     State e w6
       (tr ++ [EGet kwargs; EHasBeenPersisted s; EGetPersisted s;
               EMetadata s2; ETime; ERefresh s2])).
Proof.
  intros Hvalid Hnever Halways Hget Hflag Hreplica Hmeta Hlookup Htrue
    Hclock Hstamp Hsub Hlt.
  rewrite (call_prefix _ _ _ _ _ _ _ _ _ (ret s) Hvalid Hget Hflag).
  rewrite Hnever. simpl.
  rewrite (fetch_replica s s2 met e w2 w3 w4 _ _ Hreplica Hmeta).
  rewrite <- app_assoc, Halways. simpl.
  unfold bind, lift, subscript, ret, time_now, perform. simpl.
  rewrite Hlookup. simpl. rewrite Htrue. simpl.
  rewrite Hclock. simpl. rewrite Hstamp. simpl.
  rewrite Hsub. simpl. rewrite Hlt. simpl.
  rewrite <- app_assoc. simpl.
  destruct past; [reflexivity|]. simpl.
  destruct (store_refresh s2 w5) as [r w6]. simpl.
  by rewrite <- app_assoc.
Qed.

(** C1.  With a persisted replica, an effective mode that is neither 'never'
    nor 'always', and a true [ttl] in the replica's metadata: when
    [ttl < now - timestamp] the replica is returned as fetched, without a
    refresh; otherwise the store's [refresh] is called on the replica and
    what it gives is what the call gives. *)
Theorem C1_ttl_against_elapsed (persist : option pystr)
  (kwargs : gmap string pyval) (e : CatalogEntry) (w w1 w2 w3 w4 w5 : world)
  (tr : list event) (s s2 : pyval) (met : gmap string pyval)
  (ttl timestamp : pyval) (now elapsed : num) (past : bool) :
  is_not_None persist && negb (in_modes persist) = false ->
  chars (or_pmode persist (_pmode e)) ≠ "never" ->
  chars (or_pmode persist (_pmode e)) ≠ "always" ->
  get e kwargs w = (Ok s, w1) ->
  source_has_been_persisted s w1 = (Ok true, w2) ->
  source_get_persisted s w2 = (Ok s2, w3) ->
  source_metadata s2 w3 = (Ok met, w4) ->
  met !! "ttl" = Some ttl ->
  truthy ttl = true ->
  time_time w4 = (now, w5) ->
  met !! "timestamp" = Some timestamp ->
  py_sub now timestamp = Ok elapsed ->
  py_lt ttl elapsed = Ok past ->
  __call__ persist kwargs (State e w tr) =
  if past then
    (Ok s2,
     State e w5
       (tr ++ [EGet kwargs; EHasBeenPersisted s; EGetPersisted s;
               EMetadata s2; ETime]))
  else
    let (r, w6) := store_refresh s2 w5 in
    (r,
     State e w6
       (tr ++ [EGet kwargs; EHasBeenPersisted s; EGetPersisted s;
               EMetadata s2; ETime; ERefresh s2])).
Proof.
  intros Hvalid Hnever Halways. intros.
  eapply call_compares; eauto using str_is_other.
Qed.

End Opening.

(** ** Forwarding to the default source *)

Section Forwarding.
Context `{Collaborators}.

Lemma sources_built_app (tr tr' : list event) :
  sources_built (tr ++ tr') = (sources_built tr + sources_built tr')%nat.
Proof. unfold sources_built. by rewrite List.filter_app, length_app. Qed.

Lemma guis_built_app (tr tr' : list event) :
  guis_built (tr ++ tr') = (guis_built tr + guis_built tr')%nat.
Proof. unfold guis_built. by rewrite List.filter_app, length_app. Qed.

Ltac count_events :=
  rewrite ?sources_built_app, ?guis_built_app;
  unfold sources_built, guis_built; simpl; split_and?; try done; lia.

(** [_get_default_source] keeps nothing: each run calls [get] once more. *)
Lemma default_source_opens_anew (st : state) :
  opens_anew _get_default_source st.
Proof.
  intros r st'. destruct st as [e w tr].
  unfold _get_default_source, __call__, self_get, time_now, bind, this,
    perform, lift, ret, subscript. simpl.
  intros Hrun.
  repeat case_match; simplify_eq; simpl; count_events.
Qed.

(** Whatever is done with the default source once it is there, if that
    builds no source and no GUI, the whole access opens the entry anew. *)
Lemma forwarded_opens_anew {A} (k : pyval -> M A) (st : state) :
  (forall src st1 r st2,
      k src st1 = (r, st2) ->
      self st2 = self st1 /\
      sources_built (trace st2) = sources_built (trace st1) /\
      guis_built (trace st2) = guis_built (trace st1)) ->
  opens_anew (let* src := _get_default_source in k src) st.
Proof.
  intros Hk r st'. unfold bind.
  destruct (_get_default_source st) as [[src|err] st1] eqn:Hsrc;
    destruct (default_source_opens_anew st _ _ Hsrc) as (He & Hs & Hg).
  - intros Hrun. destruct (Hk _ _ _ _ Hrun) as (He' & Hs' & Hg').
    split_and!; congruence.
  - intros [= <- <-]. done.
Qed.

Lemma perform_quiet {A} (ev : event) (op : world -> outcome A * world)
  (st st' : state) (r : outcome A) :
  is_get ev = false -> is_EntryGUI ev = false ->
  perform ev op st = (r, st') ->
  self st' = self st /\
  sources_built (trace st') = sources_built (trace st) /\
  guis_built (trace st') = guis_built (trace st).
Proof.
  intros Hget Hgui. unfold perform.
  destruct (op (outside st)) as [r' w']. intros [= <- <-]. simpl.
  rewrite sources_built_app, guis_built_app.
  unfold sources_built, guis_built. simpl. rewrite Hget, Hgui. simpl.
  split_and!; [done | lia | lia].
Qed.

Lemma own_attr_dict (e : CatalogEntry) (name : string) (v : pyval) :
  __dict__ e !! name = Some v -> own_attr e name = Some v.
Proof. intros Hd. unfold own_attr. by rewrite Hd. Qed.

Lemma getattr_self_own (name : string) (st : state) (v : pyval) :
  own_attr (self st) name = Some v -> getattr_self name st = (Ok v, st).
Proof.
  intros Hown. unfold getattr_self.
  rewrite (bind_ok this _ st st (self st)) by reflexivity.
  by rewrite Hown.
Qed.

Lemma hasattr_self_own (name : string) (st : state) (v : pyval) :
  own_attr (self st) name = Some v -> hasattr_self name st = (Ok true, st).
Proof.
  intros Hown. unfold hasattr_self. by rewrite (getattr_self_own _ _ _ Hown).
Qed.

Lemma getattr_self_hook (name : string) (st : state) :
  own_attr (self st) name = None ->
  getattr_self name st =
  (let* src := _get_default_source in
   perform (EGetattr src name) (object_getattr src name)) st.
Proof.
  intros Hown. unfold getattr_self.
  rewrite (bind_ok this _ st st (self st)) by reflexivity.
  rewrite Hown. unfold __getattr__.
  rewrite (bind_ok this _ st st (self st)) by reflexivity.
  unfold own_attr in Hown.
  by destruct (__dict__ (self st) !! name).
Qed.

(** [__iter__] once the container kind is read off the entry. *)
Lemma iter_by_container (st : state) (container : pyval) :
  own_attr (self st) "_container" = Some container ->
  __iter__ st =
  if eq_literal container "catalog"
  then (let* src := _get_default_source in
        perform (EIter src) (object_iter src)) st
  else (Raise (ValueError "Cannot iterate a catalog entry"), st).
Proof.
  intros Hown. unfold __iter__.
  rewrite (bind_ok _ _ _ _ container (getattr_self_own _ st _ Hown)).
  by destruct (eq_literal container "catalog").
Qed.

(** C8, as the code has it.  With the container kind the entry defines:
    when it equals 'catalog', iterating is iterating the default source
    built for it; in every other case iterating raises [ValueError] (the
    spec's InvalidOperation) with the message 'Cannot iterate a catalog
    entry', and nothing else happens. *)
Theorem C8_iteration_needs_catalog (st : state) (container : pyval) :
  own_attr (self st) "_container" = Some container ->
  (eq_literal container "catalog" = true ->
   __iter__ st =
   (let* src := _get_default_source in
    perform (EIter src) (object_iter src)) st) /\
  (eq_literal container "catalog" = false ->
   __iter__ st = (Raise (ValueError "Cannot iterate a catalog entry"), st)).
Proof.
  intros Hown. rewrite (iter_by_container st container Hown).
  split; intros Hkind; by rewrite Hkind.
Qed.

(** C7, as the code has it.  For a first key that is not itself a tuple:
    a tuple of two or more keys is the access of the first key followed by
    one item access on what that gave, with the remaining keys as a tuple
    (the one-element tuple for two keys), and the entry is not opened again
    for them; a tuple of one key is the access of that key; and where the
    intermediate object answers the one-element tuple as it answers the
    key, two keys give what [entry[k0][k1]] gives. *)
Theorem C7_multi_key_access (k0 k1 : pyval) (rest : list pyval) (st : state) :
  is_tuple k0 = false ->
  __getitem__ (PyTuple (k0 :: k1 :: rest)) st =
  (let* inner := __getitem__ k0 in
   getitem inner (PyTuple (k1 :: rest))) st /\
  __getitem__ (PyTuple [k0]) st = __getitem__ k0 st /\
  (forall inner st1,
      __getitem__ k0 st = (Ok inner, st1) ->
      object_getitem inner (PyTuple [k1]) (outside st1) =
      object_getitem inner k1 (outside st1) ->
      fst (__getitem__ (PyTuple [k0; k1]) st) =
      fst ((let* inner := __getitem__ k0 in getitem inner k1) st) /\
      outside (snd (__getitem__ (PyTuple [k0; k1]) st)) =
      outside (snd ((let* inner := __getitem__ k0 in getitem inner k1) st))).
Proof.
  intros Hk0.
  assert (Hone : __getitem__ k0 =
                 (let* src := _get_default_source in getitem src k0)).
  { destruct k0; try reflexivity. discriminate. }
  assert (Hmany : forall more st0,
             __getitem__ (PyTuple (k0 :: k1 :: more)) st0 =
             (let* inner := __getitem__ k0 in
              getitem inner (PyTuple (k1 :: more))) st0).
  { intros more st0. rewrite Hone. by rewrite bind_assoc. }
  split_and!.
  - apply Hmany.
  - by rewrite Hone.
  - intros inner st1 Hinner Hsame.
    rewrite Hmany.
    rewrite !(bind_ok _ _ _ _ inner Hinner).
    unfold getitem, perform. rewrite Hsame.
    by destruct (object_getitem inner k1 (outside st1)).
Qed.

End Forwarding.

(** ** Opening an entry: what every run has in common *)

Section Opened.
Context `{Collaborators}.

(** An override that passes the check of line 98 is one of the three modes
    by its contents, and it is the mode the call goes by: [_pmode] is read
    only when no override is given. *)
Theorem accepted_override_is_the_mode (persist : option pystr)
  (pmode : pystr) :
  is_not_None persist && negb (in_modes persist) = false ->
  or_pmode persist pmode =
  match persist with
  | Some p => p
  | None => pmode
  end /\
  (forall p, persist = Some p ->
             chars p = "always" \/ chars p = "never" \/ chars p = "default").
Proof.
  intros Hvalid. destruct persist as [p|]; [|by split].
  simpl in Hvalid. apply negb_false_iff in Hvalid.
  assert (Hmode : chars p = "always" \/ chars p = "never" \/
                  chars p = "default").
  { unfold str_eq in Hvalid. simpl in Hvalid.
    apply orb_true_iff in Hvalid as [Heq|Hvalid];
      [left; by apply String.eqb_eq|].
    apply orb_true_iff in Hvalid as [Heq|Hvalid];
      [right; left; by apply String.eqb_eq|].
    apply orb_true_iff in Hvalid as [Heq|Hvalid]; [|done].
    right; right; by apply String.eqb_eq. }
  split; [|by intros p' [= <-]].
  unfold or_pmode, truthy.
  by destruct Hmode as [Heq|[Heq|Heq]]; rewrite Heq.
Qed.

(** When [get] raises, the call raises the same exception and nothing but
    [get] was called. *)
Theorem call_get_failure (persist : option pystr)
  (kwargs : gmap string pyval) (e : CatalogEntry) (w w1 : world)
  (tr : list event) (err : exn) :
  is_not_None persist && negb (in_modes persist) = false ->
  get e kwargs w = (Raise err, w1) ->
  __call__ persist kwargs (State e w tr) =
  (Raise err, State e w1 (tr ++ [EGet kwargs])).
Proof.
  intros Hvalid Hget. unfold __call__. rewrite Hvalid.
  rewrite (bind_ok this _ (State e w tr) (State e w tr) e) by reflexivity.
  by rewrite (bind_raise _ _ _ _ err (self_get_run kwargs e w w1 tr _ Hget)).
Qed.

(** When the store fails while the replica or its metadata is fetched, the
    call raises that exception: the live source, though built, is not
    returned in its place. *)
Theorem call_replica_failure (persist : option pystr)
  (kwargs : gmap string pyval) (e : CatalogEntry) (w w1 w2 w3 : world)
  (tr : list event) (s : pyval) (err : exn) (fetched : list event) :
  is_not_None persist && negb (in_modes persist) = false ->
  str_is (or_pmode persist (_pmode e)) (Interned "never") = false ->
  get e kwargs w = (Ok s, w1) ->
  source_has_been_persisted s w1 = (Ok true, w2) ->
  (source_get_persisted s w2 = (Raise err, w3) /\
   fetched = [EGetPersisted s]) \/
  (exists s2 w2',
      source_get_persisted s w2 = (Ok s2, w2') /\
      source_metadata s2 w2' = (Raise err, w3) /\
      fetched = [EGetPersisted s; EMetadata s2]) ->
  __call__ persist kwargs (State e w tr) =
  (Raise err,
   State e w3 (tr ++ [EGet kwargs; EHasBeenPersisted s] ++ fetched)).
Proof.
  intros Hvalid Hnever Hget Hflag Hfail.
  rewrite (call_prefix _ _ _ _ _ _ _ _ _ (ret s) Hvalid Hget Hflag).
  rewrite Hnever. simpl.
  destruct Hfail as [[Hreplica ->]|(s2 & w2' & Hreplica & Hmeta & ->)].
  - rewrite (bind_raise _ _ _ _ err (perform_run _ _ e w2 w3 _ _ Hreplica)).
    by rewrite <- app_assoc.
  - rewrite (bind_ok _ _ _ _ s2 (perform_run _ _ e w2 w2' _ _ Hreplica)).
    rewrite (bind_raise _ _ _ _ err (perform_run _ _ e w2' w3 _ _ Hmeta)).
    by rewrite <- !app_assoc.
Qed.

(** With a true [ttl] and no [timestamp] in the metadata, the clock is read
    and then [KeyError] is raised; the replica is not refreshed. *)
Theorem call_missing_timestamp (persist : option pystr)
  (kwargs : gmap string pyval) (e : CatalogEntry) (w w1 w2 w3 w4 w5 : world)
  (tr : list event) (s s2 : pyval) (met : gmap string pyval) (ttl : pyval)
  (now : num) :
  is_not_None persist && negb (in_modes persist) = false ->
  str_is (or_pmode persist (_pmode e)) (Interned "never") = false ->
  str_is (or_pmode persist (_pmode e)) (Interned "always") = false ->
  get e kwargs w = (Ok s, w1) ->
  source_has_been_persisted s w1 = (Ok true, w2) ->
  source_get_persisted s w2 = (Ok s2, w3) ->
  source_metadata s2 w3 = (Ok met, w4) ->
  met !! "ttl" = Some ttl ->
  truthy ttl = true ->
  time_time w4 = (now, w5) ->
  met !! "timestamp" = None ->
  __call__ persist kwargs (State e w tr) =
  (Raise (KeyError (PyStr (Interned "timestamp"))),
   State e w5
     (tr ++ [EGet kwargs; EHasBeenPersisted s; EGetPersisted s; EMetadata s2;
             ETime])).
Proof.
  intros Hvalid Hnever Halways Hget Hflag Hreplica Hmeta Hlookup Htrue
    Hclock Hstamp.
  rewrite (call_prefix _ _ _ _ _ _ _ _ _ (ret s) Hvalid Hget Hflag).
  rewrite Hnever. simpl.
  rewrite (fetch_replica s s2 met e w2 w3 w4 _ _ Hreplica Hmeta).
  rewrite <- app_assoc, Halways. simpl.
  unfold bind, lift, subscript, ret, time_now, perform. simpl.
  rewrite Hlookup. simpl. rewrite Htrue. simpl.
  rewrite Hclock. simpl. rewrite Hstamp. simpl.
  by rewrite <- app_assoc.
Qed.

(** A [ttl] that is a non-empty [str] (as a catalog file may give it) is
    true and cannot be compared with the elapsed time: the call raises
    [TypeError] once the clock is read, and the replica is not refreshed. *)
Theorem call_str_ttl (persist : option pystr)
  (kwargs : gmap string pyval) (e : CatalogEntry) (w w1 w2 w3 w4 w5 : world)
  (tr : list event) (s s2 : pyval) (met : gmap string pyval)
  (text : pystr) (timestamp : pyval) (now elapsed : num) :
  is_not_None persist && negb (in_modes persist) = false ->
  str_is (or_pmode persist (_pmode e)) (Interned "never") = false ->
  str_is (or_pmode persist (_pmode e)) (Interned "always") = false ->
  get e kwargs w = (Ok s, w1) ->
  source_has_been_persisted s w1 = (Ok true, w2) ->
  source_get_persisted s w2 = (Ok s2, w3) ->
  source_metadata s2 w3 = (Ok met, w4) ->
  met !! "ttl" = Some (PyStr text) ->
  chars text <> "" ->
  time_time w4 = (now, w5) ->
  met !! "timestamp" = Some timestamp ->
  py_sub now timestamp = Ok elapsed ->
  exists msg,
    __call__ persist kwargs (State e w tr) =
    (Raise (TypeError msg),
     State e w5
       (tr ++ [EGet kwargs; EHasBeenPersisted s; EGetPersisted s;
               EMetadata s2; ETime])).
Proof.
  intros Hvalid Hnever Halways Hget Hflag Hreplica Hmeta Hlookup Htext
    Hclock Hstamp Hsub.
  eexists.
  rewrite (call_prefix _ _ _ _ _ _ _ _ _ (ret s) Hvalid Hget Hflag).
  rewrite Hnever. simpl.
  rewrite (fetch_replica s s2 met e w2 w3 w4 _ _ Hreplica Hmeta).
  rewrite <- app_assoc, Halways. simpl.
  unfold bind, lift, subscript, ret, time_now, perform. simpl.
  rewrite Hlookup. simpl.
  apply String.eqb_neq in Htext. rewrite Htext. simpl.
  rewrite Hclock. simpl. rewrite Hstamp. simpl. rewrite Hsub. simpl.
  by rewrite <- app_assoc.
Qed.

Ltac run_call :=
  unfold __call__, self_get, time_now, bind, this, perform, lift, ret,
    subscript; simpl.

(** Every run of an accepted call, however it ends, leaves the entry's
    attributes as they were and makes its calls in the one order of
    [call_events]: [get] exactly once and first, [refresh] at most once and
    only after the replica, its metadata and the clock. *)
Theorem call_makes_its_calls_in_order (persist : option pystr)
  (kwargs : gmap string pyval) (st st' : state) (r : outcome pyval) :
  is_not_None persist && negb (in_modes persist) = false ->
  __call__ persist kwargs st = (r, st') ->
  self st' = self st /\
  exists evs : list event,
    trace st' = (trace st ++ evs)%list /\ call_events kwargs evs.
Proof.
  intros Hvalid. destruct st as [e w tr]. run_call. rewrite Hvalid.
  intros Hrun.
  repeat case_match; simplify_eq; simpl; (split; [done|]);
    rewrite <- ?app_assoc; simpl; eexists; (split; [done|]); constructor.
Qed.

(** What a call returns is the live source, with the store left alone, or
    the replica as fetched, or what [refresh] gave for that replica. *)
Theorem call_returns_live_replica_or_refreshed (persist : option pystr)
  (kwargs : gmap string pyval) (st st' : state) (v : pyval) :
  is_not_None persist && negb (in_modes persist) = false ->
  __call__ persist kwargs st = (Ok v, st') ->
  trace st' = (trace st ++ [EGet kwargs; EHasBeenPersisted v])%list \/
  (exists s,
      trace st' =
      (trace st ++ [EGet kwargs; EHasBeenPersisted s; EGetPersisted s;
                   EMetadata v])%list \/
      trace st' =
      (trace st ++ [EGet kwargs; EHasBeenPersisted s; EGetPersisted s;
                   EMetadata v; ETime])%list) \/
  (exists s s2 w5,
      trace st' =
      (trace st ++ [EGet kwargs; EHasBeenPersisted s; EGetPersisted s;
                   EMetadata s2; ETime; ERefresh s2])%list /\
      store_refresh s2 w5 = (Ok v, outside st')).
Proof.
  intros Hvalid. destruct st as [e w tr]. run_call. rewrite Hvalid.
  intros Hrun.
  repeat case_match; simplify_eq; simpl; rewrite <- ?app_assoc; simpl;
    first [ by left
          | right; left; eexists; by left
          | right; left; eexists; by right
          | right; right; by eexists _, _, _ ].
Qed.

(** An override that is a string made at run time is never found to be
    'never' or 'always' by lines 103 and 106: whichever of the three modes
    its contents spell, the call does what it does for 'default'. *)
Theorem call_run_time_override_as_default (addr : positive) (mode : string)
  (kwargs : gmap string pyval) (st : state) :
  mode = "always" \/ mode = "never" \/ mode = "default" ->
  __call__ (Some (Allocated addr mode)) kwargs st =
  __call__ (Some (Interned "default")) kwargs st.
Proof. by intros [->|[->| ->]]. Qed.

End Opened.

(** ** Forwarding: items, iteration, listing *)

Section Forwarded.
Context `{Collaborators}.

Lemma items_read_app (tr tr' : list event) :
  items_read (tr ++ tr') = (items_read tr + items_read tr')%nat.
Proof. unfold items_read. by rewrite List.filter_app, length_app. Qed.

Lemma default_source_reads_no_item (st st' : state) (r : outcome pyval) :
  _get_default_source st = (r, st') ->
  items_read (trace st') = items_read (trace st).
Proof.
  destruct st as [e w tr].
  unfold _get_default_source, __call__, self_get, time_now, bind, this,
    perform, lift, ret, subscript. simpl.
  intros Hrun.
  repeat case_match; simplify_eq; simpl; rewrite ?items_read_app;
    unfold items_read; simpl; lia.
Qed.

Lemma getitem_reads_one (o key : pyval) (st st' : state) (r : outcome pyval) :
  getitem o key st = (r, st') ->
  items_read (trace st') = S (items_read (trace st)).
Proof.
  unfold getitem, perform.
  destruct (object_getitem o key (outside st)) as [r' w'].
  intros [= <- <-]. simpl. rewrite items_read_app.
  unfold items_read. simpl. lia.
Qed.

(** Item access with the empty tuple raises [IndexError] before anything is
    built.  With any other key the entry itself makes one item access, on
    the default source, and for a tuple of two or more keys at most one
    more, on what the first gave, however many keys there are. *)
Theorem getitem_reads_at_most_twice (item : pyval) (st st' : state)
  (r : outcome pyval) :
  __getitem__ item st = (r, st') ->
  (item = PyTuple [] ->
   r = Raise (IndexError "tuple index out of range") /\ st' = st) /\
  (items_read (trace st') <=
   items_read (trace st) +
   match item with
   | PyTuple [] => 0
   | PyTuple (_ :: _ :: _) => 2
   | _ => 1
   end)%nat.
Proof.
  intros Hrun. split.
  - intros ->. simpl in Hrun. unfold raise in Hrun. by simplify_eq.
  - assert (Hone : forall key,
               (let* src := _get_default_source in getitem src key) st
               = (r, st') ->
               (items_read (trace st') <= items_read (trace st) + 1)%nat).
    { intros key. unfold bind.
      destruct (_get_default_source st) as [[src|err] st1] eqn:Hsrc;
        pose proof (default_source_reads_no_item _ _ _ Hsrc) as Hsame.
      - intros Hitem. apply getitem_reads_one in Hitem. lia.
      - intros [= <- <-]. lia. }
    destruct item as [| | | |items|]; simpl in Hrun; try by eapply Hone.
    destruct items as [|item0 [|item1 more]].
    + unfold raise in Hrun. simplify_eq. lia.
    + by eapply Hone.
    + revert Hrun. unfold bind.
      destruct (_get_default_source st) as [[src|err] st1] eqn:Hsrc;
        pose proof (default_source_reads_no_item _ _ _ Hsrc) as Hsame.
      * destruct (getitem src item0 st1) as [[inner|err] st2] eqn:Hfirst;
          apply getitem_reads_one in Hfirst.
        -- intros Hsecond. apply getitem_reads_one in Hsecond. lia.
        -- intros [= <- <-]. lia.
      * intros [= <- <-]. lia.
Qed.

Lemma getattr_self_forwarded (name : string) (st : state) :
  own_attr (self st) name = None ->
  opens_anew (getattr_self name) st.
Proof.
  intros Hown r st'. rewrite (getattr_self_hook name st Hown).
  apply forwarded_opens_anew.
  intros src st1 r1 st2. by apply perform_quiet.
Qed.

(** An entry that defines no [_container] asks the default source for it,
    and that source is built for the question alone.  A kind equal to
    'catalog' then has the entry opened a second time for the iterator; any
    other kind raises [ValueError]; and when the lookup fails, as with
    [AttributeError] on a source without [_container], iterating raises
    that exception. *)
Theorem iter_kind_from_default_source (st st1 : state) (src : pyval)
  (answer : outcome pyval) (w2 : world) :
  own_attr (self st) "_container" = None ->
  _get_default_source st = (Ok src, st1) ->
  object_getattr src "_container" (outside st1) = (answer, w2) ->
  __iter__ st =
  match answer with
  | Ok kind =>
      if eq_literal kind "catalog" then
        (let* again := _get_default_source in
         perform (EIter again) (object_iter again))
          (State (self st1) w2 (trace st1 ++ [EGetattr src "_container"]))
      else
        (Raise (ValueError "Cannot iterate a catalog entry"),
         State (self st1) w2 (trace st1 ++ [EGetattr src "_container"]))
  | Raise err =>
      (Raise err,
       State (self st1) w2 (trace st1 ++ [EGetattr src "_container"]))
  end /\
  (forall kind r st',
      answer = Ok kind -> eq_literal kind "catalog" = true ->
      __iter__ st = (r, st') ->
      sources_built (trace st') = (2 + sources_built (trace st))%nat).
Proof.
  intros Hown Hsrc Hattr.
  assert (Hlookup : getattr_self "_container" st =
                    (answer,
                     State (self st1) w2
                       (trace st1 ++ [EGetattr src "_container"]))).
  { rewrite (getattr_self_hook _ st Hown).
    rewrite (bind_ok _ _ _ _ src Hsrc).
    destruct st1 as [e1 w1 tr1]. by apply perform_run. }
  assert (Hiter : __iter__ st =
                  match answer with
                  | Ok kind =>
                      if eq_literal kind "catalog" then
                        (let* again := _get_default_source in
                         perform (EIter again) (object_iter again))
                          (State (self st1) w2
                             (trace st1 ++ [EGetattr src "_container"]))
                      else
                        (Raise (ValueError "Cannot iterate a catalog entry"),
                         State (self st1) w2
                           (trace st1 ++ [EGetattr src "_container"]))
                  | Raise err =>
                      (Raise err,
                       State (self st1) w2
                         (trace st1 ++ [EGetattr src "_container"]))
                  end).
  { unfold __iter__. destruct answer as [kind|err].
    - rewrite (bind_ok _ _ _ _ kind Hlookup).
      by destruct (eq_literal kind "catalog").
    - by rewrite (bind_raise _ _ _ _ err Hlookup). }
  split; [exact Hiter|].
  intros kind r st' -> Hkind. rewrite Hiter, Hkind. intros Hrun.
  destruct (default_source_opens_anew st _ _ Hsrc) as (_ & Hfirst & _).
  assert (Hagain : opens_anew
                     (let* again := _get_default_source in
                      perform (EIter again) (object_iter again))
                     (State (self st1) w2
                        (trace st1 ++ [EGetattr src "_container"]))).
  { apply forwarded_opens_anew. intros o sta ra stb.
    by apply perform_quiet. }
  destruct (Hagain _ _ Hrun) as (_ & Hsecond & _). simpl in Hsecond.
  rewrite sources_built_app in Hsecond. unfold sources_built in *.
  simpl in Hsecond. lia.
Qed.

#[local] Instance str_le_total : Total str_le.
Proof.
  intros a b. unfold str_le.
  destruct (String.leb_total a b) as [Hab|Hba]; [left|right];
    by apply Is_true_true.
Qed.

#[local] Instance str_le_dec (a b : string) : Decision (str_le a b).
Proof. unfold str_le. apply _. Defined.

Lemma sorted_spec (names : list string) :
  Sorted str_le (sorted names) /\
  NoDup (sorted names) /\
  forall x, x ∈ sorted names <-> x ∈ names.
Proof.
  unfold sorted. split_and!.
  - apply (Sorted_merge_sort str_le).
  - rewrite merge_sort_Permutation. apply NoDup_remove_dups.
  - intros x. rewrite merge_sort_Permutation. apply elem_of_remove_dups.
Qed.

(** The listing [__dir__] returns is in ascending order without
    repetition, and a name is on it exactly when it is one of the five
    entry-level names or a name [dir] gives for the default source built
    for the listing. *)
Theorem dir_is_the_sorted_union (st st' : state) (names : list string) :
  __dir__ st = (Ok names, st') ->
  Sorted str_le names /\
  NoDup names /\
  exists src st1 found,
    _get_default_source st = (Ok src, st1) /\
    object_dir src (outside st1) = (Ok found, outside st') /\
    forall x, x ∈ names <-> x ∈ selflist \/ x ∈ found.
Proof.
  unfold __dir__, bind.
  destruct (_get_default_source st) as [[src|err] st1] eqn:Hsrc; [|done].
  unfold perform.
  destruct (object_dir src (outside st1)) as [[found|err] w2] eqn:Hdir;
    [|done].
  unfold ret. intros [= <- <-].
  destruct (sorted_spec (selflist ++ found)) as (Hsorted & Hnodup & Hin).
  split_and!; [done | done |].
  exists src, st1, found. split_and!; [done | done |].
  intros x. rewrite Hin. apply elem_of_app.
Qed.

End Forwarded.

(** ** The GUI handle and the entry's own attributes *)

Section Kept.
Context `{Collaborators}.

Lemma not_init_name (name : string) :
  name ∉ init_names ->
  "_default_source" <> name /\ "getenv" <> name /\
  "getshell" <> name /\ "_pmode" <> name.
Proof.
  unfold init_names. rewrite !not_elem_of_cons.
  intros (Hsource & Henv & Hshell & Hmode & _). split_and!; congruence.
Qed.

Lemma gui_is_no_init_name : "_gui" ∉ init_names.
Proof.
  unfold init_names. rewrite !not_elem_of_cons.
  split_and!; [done | done | done | done | apply not_elem_of_nil].
Qed.

Lemma dict_with_attr (name : string) (v : pyval) (e : CatalogEntry) :
  name ∉ init_names -> __dict__ (with_attr name v e) !! name = Some v.
Proof.
  intros Hname. unfold __dict__, with_attr. simpl.
  destruct (not_init_name name Hname) as (H1 & H2 & H3 & H4).
  rewrite !lookup_insert_ne by done. apply lookup_insert_eq.
Qed.

(** Reading [gui] where [_gui] is found nowhere: one handle is constructed
    and bound on the instance. *)
Lemma gui_constructs (st st1 : state) (g : pyval) (w2 : world) :
  hasattr_self "_gui" st = (Ok false, st1) ->
  EntryGUI (self st1) true (outside st1) = (Ok g, w2) ->
  gui st =
  (Ok g,
   State (with_attr "_gui" g (self st1)) w2 (trace st1 ++ [EEntryGUI true])).
Proof.
  intros Hhas Hnew. unfold gui.
  rewrite (bind_ok _ _ _ _ false Hhas). simpl.
  destruct st1 as [e1 w1 tr1]. simpl in Hnew.
  rewrite !bind_assoc.
  rewrite (bind_ok this _ _ _ e1) by reflexivity.
  rewrite bind_assoc.
  rewrite (bind_ok _ _ _ _ g (perform_run _ _ e1 w1 w2 _ _ Hnew)).
  rewrite (bind_ok (setattr_self "_gui" g) _ _ _ tt eq_refl).
  apply getattr_self_own, own_attr_dict. simpl.
  apply (dict_with_attr "_gui" g e1), gui_is_no_init_name.
Qed.

(** Reading [gui] where the entry defines [_gui]. *)
Lemma gui_returns_known (st : state) (g : pyval) :
  own_attr (self st) "_gui" = Some g ->
  gui st =
  let (r, w1) := object_setattr g "visible" (PyBool true) (outside st) in
  (match r with Ok _ => Ok g | Raise err => Raise err end,
   State (self st) w1 (trace st ++ [ESetattr g "visible" (PyBool true)])).
Proof.
  intros Hown. unfold gui.
  rewrite (bind_ok _ _ _ _ true (hasattr_self_own _ st g Hown)). simpl.
  rewrite bind_assoc.
  rewrite (bind_ok _ _ _ _ g (getattr_self_own _ st g Hown)).
  unfold bind, perform.
  destruct (object_setattr g "visible" (PyBool true) (outside st))
    as [[[]|err] w1]; [|reflexivity].
  by apply getattr_self_own.
Qed.

(** Reading [gui] twice in a row, from an entry on which [_gui] is found
    nowhere: both reads give the one handle that the first constructed, and
    the second only makes it visible. *)
Theorem gui_read_twice (st st1 : state) (g : pyval) (w2 w3 : world) :
  hasattr_self "_gui" st = (Ok false, st1) ->
  EntryGUI (self st1) true (outside st1) = (Ok g, w2) ->
  object_setattr g "visible" (PyBool true) w2 = (Ok tt, w3) ->
  (let* first := gui in
   let* second := gui in
   ret (first, second)) st =
  (Ok (g, g),
   State (with_attr "_gui" g (self st1)) w3
     (trace st1 ++ [EEntryGUI true; ESetattr g "visible" (PyBool true)])).
Proof.
  intros Hhas Hnew Hvisible.
  rewrite (bind_ok _ _ _ _ g (gui_constructs st st1 g w2 Hhas Hnew)).
  assert (Hown : own_attr
                   (self (State (with_attr "_gui" g (self st1)) w2
                            (trace st1 ++ [EEntryGUI true]))) "_gui"
                 = Some g).
  { apply own_attr_dict. simpl.
    apply dict_with_attr, gui_is_no_init_name. }
  unfold bind at 1. rewrite (gui_returns_known _ g Hown). simpl.
  rewrite Hvisible. unfold ret. by rewrite <- app_assoc.
Qed.

Lemma hasattr_self_true (name : string) (st st1 : state) :
  hasattr_self name st = (Ok true, st1) ->
  exists v, getattr_self name st = (Ok v, st1).
Proof.
  unfold hasattr_self.
  destruct (getattr_self name st) as [[v|err] st2]; [|by destruct err].
  intros [= <-]. by exists v.
Qed.

(** When the entry defines no [_gui] and the default source has one, no
    handle is constructed and none is bound on the entry: the read that
    succeeds has opened the entry three times, once for each use of
    [_gui]. *)
Theorem gui_found_on_default_source (st st1 st' : state) (g : pyval) :
  own_attr (self st) "_gui" = None ->
  hasattr_self "_gui" st = (Ok true, st1) ->
  gui st = (Ok g, st') ->
  self st' = self st /\
  sources_built (trace st') = (3 + sources_built (trace st))%nat /\
  guis_built (trace st') = guis_built (trace st).
Proof.
  intros Hown Hhas. unfold gui.
  rewrite (bind_ok _ _ _ _ true Hhas). simpl.
  apply hasattr_self_true in Hhas as [v Hfirst].
  destruct (getattr_self_forwarded "_gui" st Hown _ _ Hfirst)
    as (He1 & Hs1 & Hg1).
  rewrite bind_assoc. unfold bind at 1.
  destruct (getattr_self "_gui" st1) as [[v2|err] st2] eqn:Hsecond; [|done].
  assert (Hown1 : own_attr (self st1) "_gui" = None) by by rewrite He1.
  destruct (getattr_self_forwarded "_gui" st1 Hown1 _ _ Hsecond)
    as (He2 & Hs2 & Hg2).
  unfold bind at 1.
  destruct (perform (ESetattr v2 "visible" (PyBool true))
              (object_setattr v2 "visible" (PyBool true)) st2)
    as [[[]|err] st3] eqn:Hset; [|done].
  destruct (perform_quiet (ESetattr v2 "visible" (PyBool true)) _ _ _ _
              eq_refl eq_refl Hset) as (He3 & Hs3 & Hg3).
  intros Hthird.
  assert (Hown3 : own_attr (self st3) "_gui" = None)
    by by rewrite He3, He2, He1.
  destruct (getattr_self_forwarded "_gui" st3 Hown3 _ _ Hthird)
    as (He4 & Hs4 & Hg4).
  split_and!; [congruence | lia | congruence].
Qed.


End Kept.

(** ** Display *)

Section Displayed.
Context `{Describing}.

(** [repr] of an entry whose own [name] is a [str] is that name between
    '<Catalog Entry: ' and '>', and nothing is called for it; a name that is
    a tuple is taken as the argument list of [%], so two or more items raise
    [TypeError]. *)
Theorem repr_shows_the_name (st : state) (name : pyval) :
  own_attr (self st) "name" = Some name ->
  (forall text, name = PyStr text ->
     __repr__ st = (Ok ("<Catalog Entry: " +:+ chars text +:+ ">"), st)) /\
  (forall item0 item1 more, name = PyTuple (item0 :: item1 :: more) ->
     __repr__ st =
     (Raise (TypeError "not all arguments converted during string formatting"),
      st)).
Proof.
  intros Hown. unfold __repr__.
  rewrite (bind_ok _ _ _ _ name (getattr_self_own _ st _ Hown)).
  split; [by intros text ->|by intros item0 item1 more ->].
Qed.

Lemma call_outside_run {A} (op : world -> outcome A * world)
  (e : CatalogEntry) (w w' : world) (tr : list event) (r : outcome A) :
  op w = (r, w') -> call_outside op (State e w tr) = (r, State e w' tr).
Proof. intros Hop. unfold call_outside. simpl. by rewrite Hop. Qed.

(** When [describe_open] fails: a [ValueError] is not raised but turned
    into the warning naming the entry, next to the copy of what [describe]
    gave, unchanged (and [KeyError] if that has no 'name'); every other
    exception is raised. *)
Theorem display_content_when_open_fails (e : CatalogEntry)
  (w w1 w2 w3 : world) (tr : list event)
  (described contents : gmap string pyval) (err : exn) :
  describe e w = (Ok described, w1) ->
  deepcopy described w1 = (Ok contents, w2) ->
  describe_open e ∅ w2 = (Raise err, w3) ->
  _display_content (State e w tr) =
  if is_ValueError err then
    match contents !! "name" with
    | Some name =>
        (Ok (contents,
             Some ("Need an additional plugin to load "
                     +:+ str_of name +:+ ".")),
         State e w3 tr)
    | None => (Raise (KeyError (PyStr (Interned "name"))), State e w3 tr)
    end
  else (Raise err, State e w3 tr).
Proof.
  intros Hdescribe Hcopy Hopen. unfold _display_content.
  rewrite (bind_ok this _ (State e w tr) (State e w tr) e) by reflexivity.
  rewrite (bind_ok _ _ _ _ described
             (call_outside_run _ e w w1 tr _ Hdescribe)).
  rewrite (bind_ok _ _ _ _ contents
             (call_outside_run _ e w1 w2 tr _ Hcopy)).
  rewrite (call_outside_run _ e w2 w3 tr _ Hopen).
  unfold subscript. by destruct (contents !! "name").
Qed.

(** When [describe_open] succeeds there is no warning, and the contents
    hold every key of either description, with the value [describe_open]
    gives wherever both have the key. *)
Theorem display_content_merges (e : CatalogEntry) (w w1 w2 w3 : world)
  (tr : list event) (described contents opened : gmap string pyval) :
  describe e w = (Ok described, w1) ->
  deepcopy described w1 = (Ok contents, w2) ->
  describe_open e ∅ w2 = (Ok opened, w3) ->
  exists shown,
    _display_content (State e w tr) = (Ok (shown, None), State e w3 tr) /\
    forall key,
      shown !! key =
      match opened !! key with
      | Some v => Some v
      | None => contents !! key
      end.
Proof.
  intros Hdescribe Hcopy Hopen. exists (opened ∪ contents). split.
  - unfold _display_content.
    rewrite (bind_ok this _ (State e w tr) (State e w tr) e) by reflexivity.
    rewrite (bind_ok _ _ _ _ described
               (call_outside_run _ e w w1 tr _ Hdescribe)).
    rewrite (bind_ok _ _ _ _ contents
               (call_outside_run _ e w1 w2 tr _ Hcopy)).
    by rewrite (call_outside_run _ e w2 w3 tr _ Hopen).
  - intros key. rewrite lookup_union.
    destruct (opened !! key), (contents !! key); reflexivity.
Qed.

(** On the base class, whose [describe] raises [NotImplementedError], and
    in general: what [describe] raises is what [_display_content] raises,
    [ValueError] included, and [describe_open] is not called. *)
Theorem display_content_when_describe_fails (e : CatalogEntry)
  (w w1 : world) (tr : list event) (err : exn) :
  describe e w = (Raise err, w1) ->
  _display_content (State e w tr) = (Raise err, State e w1 tr).
Proof.
  intros Hdescribe. unfold _display_content.
  rewrite (bind_ok this _ (State e w tr) (State e w tr) e) by reflexivity.
  by rewrite (bind_raise _ _ _ _ err
                (call_outside_run _ e w w1 tr _ Hdescribe)).
Qed.

End Displayed.

(** ** Looking a name up on the entry *)

Section LookedUp.
Context `{Properties}.

Lemma opens_default_source (st : state) :
  opens_default 1 _get_default_source st.
Proof.
  intros r st'. destruct st as [e w tr].
  unfold _get_default_source, __call__, self_get, time_now, bind, this,
    perform, lift, ret, subscript. simpl.
  intros Hrun.
  repeat case_match; simplify_eq; simpl; (split; [done|]);
    rewrite <- ?app_assoc; simpl; eexists; (split; [done|]); by split.
Qed.

Lemma perform_opens_nothing {A} (ev : event) (op : world -> outcome A * world)
  (st : state) :
  is_get ev = false -> is_EntryGUI ev = false ->
  opens_default 0 (perform ev op) st.
Proof.
  intros Hget Hgui r st'. unfold perform.
  destruct (op (outside st)) as [r' w']. intros [= <- <-]. simpl.
  split; [done|]. exists [ev]. simpl. by rewrite Hget, Hgui.
Qed.

(** What follows the default source adds no opening of its own. *)
Lemma forwarded_opens_default {A} (k : pyval -> M A) (st : state) :
  (forall src st1, opens_default 0 (k src) st1) ->
  opens_default 1 (let* src := _get_default_source in k src) st.
Proof.
  intros Hk r st'. unfold bind.
  destruct (_get_default_source st) as [[src|err] st1] eqn:Hsrc;
    destruct (opens_default_source st _ _ Hsrc)
    as (He & evs & Htr & Hgets & Hguis).
  - intros Hrun.
    destruct (Hk src st1 _ _ Hrun) as (He' & evs' & Htr' & Hgets' & Hguis').
    split; [congruence|]. exists (evs ++ evs')%list.
    rewrite Htr', Htr, <- app_assoc, !List.filter_app, Hgets, Hguis,
      Hgets', Hguis'.
    by rewrite !app_nil_r.
  - intros [= <- <-]. split; [done|]. by exists evs.
Qed.

Lemma hook_opens_default (name : string) (st : state) :
  __dict__ (self st) !! name = None ->
  opens_default 1 (__getattr__ name) st.
Proof.
  intros Hd r st'. unfold __getattr__.
  rewrite (bind_ok this _ st st (self st)) by reflexivity.
  rewrite Hd. apply forwarded_opens_default.
  intros src st1. by apply perform_opens_nothing.
Qed.

Lemma own_attr_no_dict (e : CatalogEntry) (name : string) :
  own_attr e name = None -> __dict__ e !! name = None.
Proof. unfold own_attr. by destruct (__dict__ e !! name). Qed.

Lemma getattr_self_opens_default (name : string) (st : state) :
  own_attr (self st) name = None ->
  opens_default 1 (getattr_self name) st.
Proof.
  intros Hown r st'. rewrite (getattr_self_hook name st Hown).
  apply forwarded_opens_default.
  intros src st1. by apply perform_opens_nothing.
Qed.

Lemma getitem_opens_nothing (o key : pyval) (st : state) :
  opens_default 0 (getitem o key) st.
Proof. by apply perform_opens_nothing. Qed.

Lemma read_property_run (name : string) (fget : M pyval) (st : state) :
  property_of_class name = Some fget ->
  getattr_entry name st =
  match fget st with
  | (Raise (AttributeError _), st1) => __getattr__ name st1
  | run => run
  end.
Proof. intros Hprop. unfold getattr_entry. by rewrite Hprop. Qed.


Lemma getattr_entry_plain (name : string) (st : state) :
  property_of_class name = None ->
  getattr_entry name st =
  match defined_on_entry (self st) name with
  | Some v => (Ok v, st)
  | None => __getattr__ name st
  end.
Proof.
  intros Hplain. unfold getattr_entry. rewrite Hplain.
  rewrite (bind_ok this _ st st (self st)) by reflexivity.
  by destruct (defined_on_entry (self st) name).
Qed.

Lemma hook_forwards (name : string) (st : state) :
  __dict__ (self st) !! name = None ->
  __getattr__ name st =
  (let* src := _get_default_source in
   perform (EGetattr src name) (object_getattr src name)) st.
Proof.
  intros Hd. unfold __getattr__.
  rewrite (bind_ok this _ st st (self st)) by reflexivity.
  by rewrite Hd.
Qed.

Lemma not_defined_no_dict (e : CatalogEntry) (name : string) :
  defined_on_entry e name = None -> __dict__ e !! name = None.
Proof. unfold defined_on_entry. by destruct (__dict__ e !! name). Qed.



End LookedUp.

(** * The entry at work on the small catalog *)

#[local] Existing Instance Demo.seconds.
#[local] Existing Instance Demo.store.

Import Demo.

(** ttl 100, replica 50 seconds old: [100 < 50] is false, the replica is
    refreshed. *)
Lemma C1_within_ttl_refreshes :
  fst (__call__ None ∅ (start default_entry (persisted_world (PyNum 100) 50)))
  = Ok refreshed_obj.
Proof.
  pose (w := persisted_world (@PyNum seconds 100) 50).
  pose (w1 := opening w).
  rewrite (C1_ttl_against_elapsed (H := seconds) (H0 := store) None ∅
             default_entry w w1 w1 w1 w1 w1 [] (PyObj 10) replica_obj
             {[ "ttl" := @PyNum seconds 100;
                "timestamp" := @PyNum seconds 950 ]}
             (@PyNum seconds 100) (@PyNum seconds 950) 1000 50 false);
    first [reflexivity | discriminate].
Defined.

(** ttl 100, replica 200 seconds old: [100 < 200], the replica is returned
    as it is. *)
Example call_past_ttl_keeps :
  __call__ None ∅ (start default_entry (persisted_world (PyNum 100) 200))
  = (Ok replica_obj,
     State default_entry
       {| clock := 1000; opened := 11;
          replica := Some (PyNum 100, 800) |}
       [EGet ∅; EHasBeenPersisted (PyObj 10); EGetPersisted (PyObj 10);
        EMetadata replica_obj; ETime]).
Proof. repeat split; first [reflexivity | discriminate]. Qed.

Lemma C2_sometimes_is_rejected :
  __call__ (Some (Interned "sometimes")) ∅
    (start default_entry (persisted_world (PyNum 100) 50))
  = (Raise (ValueError "Persist value (sometimes) not understood"),
     start default_entry (persisted_world (PyNum 100) 50)).
Proof.
  apply (C2_invalid_override_raises (H := seconds) (H0 := store)
           (Interned "sometimes"));
    discriminate.
Defined.

Lemma C5_ttl_zero_keeps :
  __call__ None ∅ (start default_entry (persisted_world (PyNum 0) 50))
  = (Ok replica_obj,
     State default_entry
       {| clock := 1000; opened := 11;
          replica := Some (PyNum 0, 950) |}
       [EGet ∅; EHasBeenPersisted (PyObj 10); EGetPersisted (PyObj 10);
        EMetadata replica_obj]).
Proof.
  pose (w := persisted_world (@PyNum seconds 0) 50).
  pose (w1 := opening w).
  apply (C5_falsy_ttl_returns_replica (H := seconds) (H0 := store) None ∅
           default_entry w w1 w1 w1 w1 [] (PyObj 10) replica_obj
           {[ "ttl" := @PyNum seconds 0; "timestamp" := @PyNum seconds 950 ]}
           (@PyNum seconds 0));
    first [reflexivity | discriminate].
Defined.

(** The same with [ttl] left at [None]. *)
Example call_ttl_None_keeps :
  fst (__call__ None ∅ (start default_entry (persisted_world PyNone 50)))
  = Ok replica_obj.
Proof. repeat split; first [reflexivity | discriminate]. Qed.

(** C3, at a run-time string.  The override is a string equal to 'never'
    that is not the literal, and a replica exists: the override is accepted,
    [persist is not 'never'] holds of it, and the call fetches the replica
    and returns it instead of the live source (object 10). *)
Theorem C3_never_made_at_run_time :
  chars never_at_run_time = "never" /\
  __call__ (Some never_at_run_time) ∅
    (start default_entry (persisted_world (PyNum 100) 200))
  = (Ok replica_obj,
     State default_entry
       {| clock := 1000; opened := 11;
          replica := Some (PyNum 100, 800) |}
       [EGet ∅; EHasBeenPersisted (PyObj 10); EGetPersisted (PyObj 10);
        EMetadata replica_obj; ETime]).
Proof. repeat split; first [reflexivity | discriminate]. Qed.

(** The literal 'never' in the same place gives the live source. *)
Example call_never_literal_is_live :
  __call__ (Some (Interned "never")) ∅
    (start default_entry (persisted_world (PyNum 100) 200))
  = (Ok (PyObj 10),
     State default_entry
       {| clock := 1000; opened := 11;
          replica := Some (PyNum 100, 800) |}
       [EGet ∅; EHasBeenPersisted (PyObj 10)]).
Proof. repeat split; first [reflexivity | discriminate]. Qed.

(** C4, at a run-time string.  The override is a string equal to 'always'
    that is not the literal, the replica is 50 seconds old and its ttl is
    100: [persist is 'always'] fails, the ttl is compared, and the replica
    is refreshed instead of being returned as it is. *)
Theorem C4_always_made_at_run_time :
  chars always_at_run_time = "always" /\
  __call__ (Some always_at_run_time) ∅
    (start default_entry (persisted_world (PyNum 100) 50))
  = (Ok refreshed_obj,
     State default_entry
       {| clock := 1000; opened := 11;
          replica := Some (PyNum 100, 1000) |}
       [EGet ∅; EHasBeenPersisted (PyObj 10); EGetPersisted (PyObj 10);
        EMetadata replica_obj; ETime; ERefresh replica_obj]).
Proof. repeat split; first [reflexivity | discriminate]. Qed.

(** The literal 'always' in the same place keeps the replica. *)
Example call_always_literal_keeps :
  __call__ (Some (Interned "always")) ∅
    (start default_entry (persisted_world (PyNum 100) 50))
  = (Ok replica_obj,
     State default_entry
       {| clock := 1000; opened := 11;
          replica := Some (PyNum 100, 950) |}
       [EGet ∅; EHasBeenPersisted (PyObj 10); EGetPersisted (PyObj 10);
        EMetadata replica_obj]).
Proof. repeat split; first [reflexivity | discriminate]. Qed.


(** Reading [gui] twice: one handle is constructed, and both reads give it. *)
Example gui_twice :
  let run :=
    (let* first := gui in
     let* second := gui in
     ret (first, second)) (start default_entry fresh_world) in
  fst run = Ok (gui_obj, gui_obj) /\
  guis_built (trace (snd run)) = 1%nat /\
  extra (self (snd run)) !! "_gui" = Some gui_obj.
Proof. repeat split; first [reflexivity | discriminate]. Qed.

(** With a default source whose item 'a' is a plain [dict] with the key
    'b': [entry['a']['b']] is 7, and [entry[('a', 'b')]] asks that [dict]
    for the key [('b',)] and raises [KeyError]. *)
Lemma C7_tuple_reaches_inner_as_tuple :
  fst (__getitem__ (PyTuple [key_a; key_b]) (start default_entry fresh_world))
  = Raise (KeyError (PyTuple [key_b])) /\
  fst ((let* inner := __getitem__ key_a in getitem inner key_b)
         (start default_entry fresh_world))
  = Ok (PyNum 7).
Proof. repeat split; first [reflexivity | discriminate]. Qed.

Lemma C7_two_keys_on_demo :
  __getitem__ (PyTuple [key_a; key_b]) (start default_entry fresh_world) =
  (let* inner := __getitem__ key_a in
   getitem inner (PyTuple [key_b])) (start default_entry fresh_world).
Proof.
  apply (C7_multi_key_access (H := seconds) (H0 := store) key_a key_b [] (start default_entry fresh_world)).
  reflexivity.
Defined.

(** A tuple as the first key is unpacked by [entry[k0]] and passed whole by
    [entry[(k0,)]]. *)
Example tuple_as_first_key :
  fst (__getitem__ (PyTuple [PyTuple [key_a; key_b]])
         (start default_entry fresh_world))
  <> fst (__getitem__ (PyTuple [key_a; key_b])
            (start default_entry fresh_world)).
Proof. repeat split; first [reflexivity | discriminate]. Qed.

(** Iterating an entry of container kind 'dataframe': the message starts
    with a capital letter. *)
Lemma C8_message_is_capitalised :
  __iter__ (start (entry_of "dataframe") fresh_world)
  = (Raise (ValueError "Cannot iterate a catalog entry"),
     start (entry_of "dataframe") fresh_world) /\
  fst (__iter__ (start (entry_of "dataframe") fresh_world))
  <> Raise (ValueError "cannot iterate a catalog entry").
Proof. repeat split; first [reflexivity | discriminate]. Qed.

Lemma C8_dataframe_entry_refuses :
  __iter__ (start (entry_of "dataframe") fresh_world)
  = (Raise (ValueError "Cannot iterate a catalog entry"),
     start (entry_of "dataframe") fresh_world).
Proof.
  apply (C8_iteration_needs_catalog (H := seconds) (H0 := store) (start (entry_of "dataframe") fresh_world)
           (PyStr (Interned "dataframe")));
    reflexivity.
Defined.

Example catalog_entry_iterates :
  __iter__ (start (entry_of "catalog") fresh_world)
  = (Ok iterator_obj,
     State (entry_of "catalog")
       {| clock := 1000; opened := 11; replica := None |}
       [EGet ∅; EHasBeenPersisted (PyObj 10); EIter (PyObj 10)]).
Proof. repeat split; first [reflexivity | discriminate]. Qed.

Example missing_name_raises :
  getattr_self "nowhere" (start default_entry fresh_world)
  = (Raise (AttributeError "nowhere"),
     State default_entry
       {| clock := 1000; opened := 11; replica := None |}
       [EGet ∅; EHasBeenPersisted (PyObj 10); EGetattr (PyObj 10) "nowhere"]).
Proof. repeat split; first [reflexivity | discriminate]. Qed.

Example dir_lists_both :
  fst (__dir__ (start default_entry fresh_world))
  = Ok ["container"; "describe"; "describe_open"; "get"; "has_been_persisted";
        "plots"; "read"].
Proof. repeat split; first [reflexivity | discriminate]. Qed.

(** * The entry at work on scripted collaborators *)

Lemma never_override_is_the_mode :
  or_pmode (Some (Interned "never")) (Interned "default") = Interned "never".
Proof.
  apply (accepted_override_is_the_mode (H := seconds)
           (Some (Interned "never")) (Interned "default")).
  reflexivity.
Defined.

(** The base class: [get] raises [NotImplementedError], and so does
    calling the entry. *)
Lemma base_class_cannot_be_opened :
  __call__ None ∅ (Scripted.start Scripted.entry Scripted.base_class)
  = (Raise NotImplementedError,
     Scripted.reached Scripted.entry Scripted.base_class [EGet ∅]).
Proof.
  apply (call_get_failure (H := seconds) (H0 := Scripted.collaborators)
           None ∅ Scripted.entry Scripted.base_class Scripted.base_class []
           NotImplementedError);
    reflexivity.
Defined.

Lemma broken_store_is_not_papered_over :
  __call__ None ∅ (Scripted.start Scripted.entry Scripted.broken_store)
  = (Raise (OtherError "OSError" "store unreadable"),
     Scripted.reached Scripted.entry Scripted.broken_store
       [EGet ∅; EHasBeenPersisted (PyObj 10); EGetPersisted (PyObj 10)]).
Proof.
  apply (call_replica_failure (H := seconds) (H0 := Scripted.collaborators)
           None ∅ Scripted.entry Scripted.broken_store Scripted.broken_store
           Scripted.broken_store Scripted.broken_store [] (PyObj 10)
           (OtherError "OSError" "store unreadable")
           [EGetPersisted (PyObj 10)]);
    try reflexivity.
  left. split; reflexivity.
Defined.

Lemma metadata_without_ttl_raises :
  fst (__call__ None ∅
         (Scripted.start Scripted.entry
            (Scripted.with_replica {[ "timestamp" := @PyNum seconds 950 ]} ∅)))
  = Raise (KeyError (PyStr (Interned "ttl"))).
Proof.
  pose (w := Scripted.with_replica {[ "timestamp" := @PyNum seconds 950 ]} ∅).
  rewrite (call_missing_ttl (H := seconds) (H0 := Scripted.collaborators)
             None ∅ Scripted.entry w w w w w [] (PyObj 10) (PyObj 1)
             {[ "timestamp" := @PyNum seconds 950 ]});
    reflexivity.
Defined.

Lemma metadata_without_timestamp_raises :
  fst (__call__ None ∅
         (Scripted.start Scripted.entry
            (Scripted.with_replica {[ "ttl" := @PyNum seconds 100 ]} ∅)))
  = Raise (KeyError (PyStr (Interned "timestamp"))).
Proof.
  pose (w := Scripted.with_replica {[ "ttl" := @PyNum seconds 100 ]} ∅).
  rewrite (call_missing_timestamp (H := seconds)
             (H0 := Scripted.collaborators)
             None ∅ Scripted.entry w w w w w w [] (PyObj 10) (PyObj 1)
             {[ "ttl" := @PyNum seconds 100 ]} (@PyNum seconds 100) 1000);
    reflexivity.
Defined.

Lemma ttl_given_as_text_raises :
  exists msg,
    fst (__call__ None ∅
           (Scripted.start Scripted.entry
              (Scripted.with_replica
                 {[ "ttl" := @PyStr seconds (Interned "100");
                    "timestamp" := @PyNum seconds 950 ]} ∅)))
    = Raise (TypeError msg).
Proof.
  pose (met := ({[ "ttl" := @PyStr seconds (Interned "100");
                   "timestamp" := @PyNum seconds 950 ]}
                : gmap string (@pyval seconds))).
  pose (w := Scripted.with_replica met ∅).
  destruct (call_str_ttl (H := seconds) (H0 := Scripted.collaborators)
              None ∅ Scripted.entry w w w w w w [] (PyObj 10) (PyObj 1)
              met (Interned "100") (@PyNum seconds 950) 1000 50)
    as [msg Hrun]; try reflexivity; [discriminate|].
  exists msg. fold met. fold w. unfold Scripted.start.
  by rewrite Hrun.
Defined.

Lemma refreshing_run_is_in_order :
  let run :=
    __call__ None ∅ (start default_entry (persisted_world (PyNum 100) 50)) in
  self (snd run) = default_entry /\
  exists evs : list event,
    trace (snd run) = ([] ++ evs)%list /\ call_events ∅ evs.
Proof.
  apply (call_makes_its_calls_in_order (H := seconds) (H0 := store) None ∅
           (start default_entry (persisted_world (@PyNum seconds 100) 50))
           _ (Ok refreshed_obj));
    reflexivity.
Defined.

Lemma kept_replica_is_what_was_fetched :
  let st := start default_entry (persisted_world (PyNum 100) 200) in
  let st' := snd (__call__ None ∅ st) in
  trace st' = (trace st ++ [EGet ∅; EHasBeenPersisted replica_obj])%list \/
  (exists s,
      trace st' =
      (trace st ++ [EGet ∅; EHasBeenPersisted s; EGetPersisted s;
                    EMetadata replica_obj])%list \/
      trace st' =
      (trace st ++ [EGet ∅; EHasBeenPersisted s; EGetPersisted s;
                    EMetadata replica_obj; ETime])%list) \/
  (exists s s2 w5,
      trace st' =
      (trace st ++ [EGet ∅; EHasBeenPersisted s; EGetPersisted s;
                    EMetadata s2; ETime; ERefresh s2])%list /\
      store_refresh s2 w5 = (Ok replica_obj, outside st')).
Proof.
  apply (call_returns_live_replica_or_refreshed (H := seconds) (H0 := store)
           None ∅
           (start default_entry (persisted_world (@PyNum seconds 100) 200)));
    reflexivity.
Defined.

Lemma run_time_never_as_default :
  __call__ (Some never_at_run_time) ∅
    (start default_entry (persisted_world (PyNum 100) 200))
  = __call__ (Some (Interned "default")) ∅
      (start default_entry (persisted_world (PyNum 100) 200)).
Proof.
  apply (call_run_time_override_as_default (H := seconds) (H0 := store)
           1 "never").
  right. left. reflexivity.
Defined.

Lemma nothing_persisted_gives_live :
  __call__ (Some (Interned "always")) ∅ (start default_entry fresh_world)
  = (Ok (PyObj 10),
     State default_entry (opening fresh_world)
       [EGet ∅; EHasBeenPersisted (PyObj 10)]).
Proof.
  apply (call_without_replica (H := seconds) (H0 := store)
           (Some (Interned "always")) ∅ default_entry fresh_world
           (opening fresh_world) (opening fresh_world) [] (PyObj 10));
    reflexivity.
Defined.

Lemma never_mode_of_the_entry_gives_live :
  __call__ None ∅
    (start (entry_in (Interned "never")) (persisted_world (PyNum 0) 50))
  = (Ok (PyObj 10),
     State (entry_in (Interned "never"))
       (opening (persisted_world (PyNum 0) 50))
       [EGet ∅; EHasBeenPersisted (PyObj 10)]).
Proof.
  apply (call_never_literal (H := seconds) (H0 := store) None ∅
           (entry_in (Interned "never"))
           (persisted_world (@PyNum seconds 0) 50)
           (opening (persisted_world (@PyNum seconds 0) 50))
           (opening (persisted_world (@PyNum seconds 0) 50)) [] (PyObj 10)
           true);
    reflexivity.
Defined.

(** Mode 'always' with metadata that has no ttl at all. *)
Lemma always_does_not_read_ttl :
  __call__ (Some (Interned "always")) ∅
    (Scripted.start Scripted.entry (Scripted.with_replica ∅ ∅))
  = (Ok (PyObj 1),
     Scripted.reached Scripted.entry (Scripted.with_replica ∅ ∅)
       [EGet ∅; EHasBeenPersisted (PyObj 10); EGetPersisted (PyObj 10);
        EMetadata (PyObj 1)]).
Proof.
  pose (w := Scripted.with_replica (∅ : gmap string (@pyval seconds)) ∅).
  apply (call_always_literal (H := seconds) (H0 := Scripted.collaborators)
           (Some (Interned "always")) ∅ Scripted.entry w w w w w []
           (PyObj 10) (PyObj 1) ∅);
    reflexivity.
Defined.

Lemma three_keys_two_reads :
  let st := start default_entry fresh_world in
  let run := __getitem__ (PyTuple [key_a; key_b; key_b]) st in
  (items_read (trace (snd run)) <= items_read (trace st) + 2)%nat.
Proof.
  intros st run.
  apply (getitem_reads_at_most_twice (H := seconds) (H0 := store)
           (PyTuple [key_a; key_b; key_b]) st (snd run) (fst run)).
  reflexivity.
Defined.

(** A source that says it is a catalog, asked by an entry that does not
    say: the entry is opened twice. *)
Lemma kind_asked_of_the_source :
  let w := Scripted.without_replica
             {[ "_container" := @PyStr seconds (Interned "catalog") ]} in
  __iter__ (Scripted.start Scripted.entry w)
  = (Ok (PyObj 5),
     Scripted.reached Scripted.entry w
       [EGet ∅; EHasBeenPersisted (PyObj 10);
        EGetattr (PyObj 10) "_container";
        EGet ∅; EHasBeenPersisted (PyObj 10); EIter (PyObj 10)]).
Proof.
  intros w.
  rewrite (proj1 (iter_kind_from_default_source (H := seconds)
                    (H0 := Scripted.collaborators)
                    (Scripted.start Scripted.entry w)
                    (Scripted.reached Scripted.entry w
                       [EGet ∅; EHasBeenPersisted (PyObj 10)])
                    (PyObj 10)
                    (Ok (@PyStr seconds (Interned "catalog"))) w
                    eq_refl eq_refl eq_refl)).
  reflexivity.
Defined.

Lemma listing_of_the_demo_source :
  let run := __dir__ (start default_entry fresh_world) in
  Sorted str_le
    ["container"; "describe"; "describe_open"; "get"; "has_been_persisted";
     "plots"; "read"].
Proof.
  intros run.
  apply (dir_is_the_sorted_union (H := seconds) (H0 := store)
           (start default_entry fresh_world) (snd run)).
  reflexivity.
Defined.

Lemma gui_twice_on_demo :
  (let* first := gui in
   let* second := gui in
   ret (first, second)) (start default_entry fresh_world)
  = (Ok (gui_obj, gui_obj),
     @State seconds store (with_attr "_gui" gui_obj default_entry)
       (opening fresh_world)
       [EGet ∅; EHasBeenPersisted (PyObj 10); EGetattr (PyObj 10) "_gui";
        EEntryGUI true; ESetattr gui_obj "visible" (PyBool true)]).
Proof.
  apply (gui_read_twice (H := seconds) (H0 := store)
           (start default_entry fresh_world)
           (@State seconds store default_entry (opening fresh_world)
              [EGet ∅; EHasBeenPersisted (PyObj 10);
               EGetattr (PyObj 10) "_gui"])
           gui_obj (opening fresh_world) (opening fresh_world));
    reflexivity.
Defined.

Lemma gui_of_the_source_is_not_kept :
  let w := Scripted.without_replica {[ "_gui" := @PyObj seconds 7 ]} in
  let st := Scripted.start Scripted.entry w in
  self (snd (gui st)) = Scripted.entry /\
  sources_built (trace (snd (gui st))) = (3 + sources_built (trace st))%nat /\
  guis_built (trace (snd (gui st))) = guis_built (trace st).
Proof.
  intros w st.
  apply (gui_found_on_default_source (H := seconds)
           (H0 := Scripted.collaborators) st
           (Scripted.reached Scripted.entry w
              [EGet ∅; EHasBeenPersisted (PyObj 10);
               EGetattr (PyObj 10) "_gui"])
           (snd (gui st)) (PyObj 7));
    reflexivity.
Defined.


Lemma repr_of_trips :
  __repr__ (H1 := Scripted.describing)
    (Scripted.start Scripted.named_entry Scripted.base_class)
  = (Ok "<Catalog Entry: trips>",
     Scripted.start Scripted.named_entry Scripted.base_class).
Proof.
  apply (proj1 (repr_shows_the_name (H := seconds)
                  (H0 := Scripted.collaborators) (H1 := Scripted.describing)
                  (Scripted.start Scripted.named_entry Scripted.base_class)
                  (PyStr (Interned "trips")) eq_refl)
           (Interned "trips")).
  reflexivity.
Defined.

Lemma missing_plugin_is_a_warning :
  fst (_display_content (H1 := Scripted.describing)
         (Scripted.start Scripted.entry (Scripted.without_replica ∅)))
  = Ok ({[ "name" := PyStr (Interned "trips");
           "container" := PyStr (Interned "dataframe") ]},
        Some "Need an additional plugin to load trips.").
Proof.
  unfold Scripted.start.
  set (w := Scripted.without_replica (∅ : gmap string (@pyval seconds))).
  rewrite (display_content_when_open_fails (H := seconds)
             (H0 := Scripted.collaborators) (H1 := Scripted.describing)
             Scripted.entry w w w w []
             {[ "name" := @PyStr seconds (Interned "trips");
                "container" := @PyStr seconds (Interned "dataframe") ]}
             {[ "name" := @PyStr seconds (Interned "trips");
                "container" := @PyStr seconds (Interned "dataframe") ]}
             (ValueError "no plugin"));
    reflexivity.
Defined.

Lemma opened_container_wins :
  exists shown,
    _display_content (H1 := Scripted.describing)
      (Scripted.start Scripted.entry (Scripted.with_replica ∅ ∅))
    = (Ok (shown, None),
       Scripted.start Scripted.entry (Scripted.with_replica ∅ ∅)) /\
    shown !! "container" = Some (PyStr (Interned "catalog")) /\
    shown !! "name" = Some (PyStr (Interned "trips")).
Proof.
  pose (w := Scripted.with_replica (∅ : gmap string (@pyval seconds)) ∅).
  destruct (display_content_merges (H := seconds)
              (H0 := Scripted.collaborators) (H1 := Scripted.describing)
              Scripted.entry w w w w []
              {[ "name" := @PyStr seconds (Interned "trips");
                 "container" := @PyStr seconds (Interned "dataframe") ]}
              {[ "name" := @PyStr seconds (Interned "trips");
                 "container" := @PyStr seconds (Interned "dataframe") ]}
              {[ "container" := @PyStr seconds (Interned "catalog");
                 "plugin" := @PyStr seconds (Interned "csv") ]}
              eq_refl eq_refl eq_refl)
    as (shown & Hrun & Hkeys).
  exists shown. split_and!; [exact Hrun | by rewrite Hkeys | by rewrite Hkeys].
Defined.

Lemma base_class_cannot_be_displayed :
  _display_content (H1 := Scripted.describing)
    (Scripted.start Scripted.entry Scripted.base_class)
  = (Raise NotImplementedError,
     Scripted.start Scripted.entry Scripted.base_class).
Proof.
  apply (display_content_when_describe_fails (H := seconds)
           (H0 := Scripted.collaborators) (H1 := Scripted.describing)
           Scripted.entry Scripted.base_class Scripted.base_class []
           NotImplementedError).
  reflexivity.
Defined.

(** * Looking names up on scripted collaborators *)




